(** * DNSDumpsterAPI: a shallow embedding of [dnsdumpster/DNSDumpsterAPI.py]

    The development follows the Python module top to bottom:

    - [PyStr]: the [str] methods the module calls ([split], [splitlines],
      [strip], [join], [in]);
    - [Re]: the backtracking matcher behind [re.findall] / [re.search], for
      the patterns of the module;
    - [Soup]: the BeautifulSoup tree and its navigation ([findAll], [find],
      [text]);
    - the row extractor [retrieve_results] and [retrieve_txt_record];
    - the client ([get_token], [get_dnsdumpster], [parse_dnsdumpster],
      [search]) over a trace of the calls it makes to its libraries.

    A Python [str] is a [string] whose characters stand for the code points
    below 256. *)

From Stdlib Require Import Ascii NArith.
From stdpp Require Import gmap strings list pretty.

(** ** Python values, exceptions and results *)

#[warnings="-register-all"]
Inductive value :=
| VNone
| VStr (s : string)
| VList (l : list value)
| VDict (d : gmap string value).

Inductive exn :=
| IndexError
| KeyError (key : string)
| TypeError (msg : string)
| RequestException (msg : string).

Inductive result (A : Type) :=
| Ok (a : A)
| Raise (e : exn).
Arguments Ok {A} a.
Arguments Raise {A} e.

Global Instance result_ret : MRet result := λ A a, Ok a.
Global Instance result_bind : MBind result := λ A B k r,
  match r with
  | Ok a => k a
  | Raise e => Raise e
  end.

Global Instance result_fmap : FMap result := λ A B f r,
  match r with
  | Ok a => Ok (f a)
  | Raise e => Raise e
  end.

(** [l[i]] for a constant, non-negative index. *)
Definition getitem {A} (l : list A) (i : nat) : result A :=
  match l !! i with
  | Some a => Ok a
  | None => Raise IndexError
  end.

(** [str(e)] *)
Definition exn_str (e : exn) : string :=
  match e with
  | IndexError => "list index out of range"
  | KeyError k => "'" +:+ k +:+ "'"
  | TypeError msg => msg
  | RequestException msg => msg
  end.

(** ** The [str] methods *)

Module PyStr.

Definition newline : ascii := ascii_of_N 10.
Definition carriage_return : ascii := ascii_of_N 13.

(** [str.isspace] on one character: the white space below U+0100. *)
Definition isspace (c : ascii) : bool :=
  let n := N_of_ascii c in
  ((9 <=? n) && (n <=? 13) || (28 <=? n) && (n <=? 32)
   || (n =? 133) || (n =? 160))%N.

(** The line boundaries of [str.splitlines] below U+0100. *)
Definition islinebreak (c : ascii) : bool :=
  let n := N_of_ascii c in
  ((10 <=? n) && (n <=? 13) || (28 <=? n) && (n <=? 30) || (n =? 133))%N.

(** [c in s] for a one-character [c]. *)
Fixpoint contains (c : ascii) (s : string) : bool :=
  match s with
  | EmptyString => false
  | String a s' => if decide (a = c) then true else contains c s'
  end.

(** [s.count(c)] for a one-character [c]. *)
Fixpoint count (c : ascii) (s : string) : nat :=
  match s with
  | EmptyString => O
  | String a s' => if decide (a = c) then S (count c s') else count c s'
  end.

Definition cons_head (c : ascii) (l : list string) : list string :=
  match l with
  | h :: t => String c h :: t
  | [] => [String c EmptyString]
  end.

(** [s.split(sep)] for a non-empty [sep]: the occurrences of [sep] are
    found left to right and do not overlap; [skip] counts the characters
    of an occurrence still to pass over. *)
Fixpoint split_go (sep : string) (skip : nat) (s : string) : list string :=
  match s with
  | EmptyString => [EmptyString]
  | String c s' =>
      match skip with
      | S k => split_go sep k s'
      | O =>
          if String.prefix sep s
          then EmptyString :: split_go sep (String.length sep - 1) s'
          else cons_head c (split_go sep 0 s')
      end
  end.

Definition split (sep s : string) : list string := split_go sep 0 s.

(** [s.splitlines()]: a carriage return followed by a newline is one
    boundary, and a boundary at the very end opens no further line. *)
Fixpoint splitlines (s : string) : list string :=
  match s with
  | EmptyString => []
  | String c s' =>
      if islinebreak c
      then EmptyString ::
           splitlines
             match s' with
             | String c' s'' =>
                 if decide (c = carriage_return ∧ c' = newline) then s'' else s'
             | EmptyString => s'
             end
      else cons_head c (splitlines s')
  end.

Fixpoint lstrip (s : string) : string :=
  match s with
  | EmptyString => EmptyString
  | String c s' => if isspace c then lstrip s' else s
  end.

Definition rstrip (s : string) : string :=
  String.rev (lstrip (String.rev s)).

(** [s.strip()] *)
Definition strip (s : string) : string := rstrip (lstrip s).

(** [sep.join(l)] *)
Definition join (sep : string) (l : list string) : string :=
  String.concat sep l.

(** Truth value of a [str]. *)
Definition truthy (s : string) : bool :=
  match s with
  | EmptyString => false
  | String _ _ => true
  end.

End PyStr.

Import PyStr.

(** ** The [re] matcher

    A pattern is a sequence of atoms: a literal character, or a character
    class under a greedy bounded repetition [{lo,hi}] ([hi = None] for an
    open bound).  The matcher backtracks the way [re] does: a repetition
    takes as many characters as it can and gives them back one at a time
    while the rest of the pattern fails.  A match is reported as the list of
    the pieces its atoms consumed. *)

Module Re.

Inductive atom :=
| Chr (c : ascii)
| Rep (cls : ascii → bool) (lo : nat) (hi : option nat).

Definition bound_left (hi : option nat) : bool :=
  match hi with
  | Some O => false
  | _ => true
  end.

Fixpoint rep_here (cls : ascii → bool) (k : string → option (list string))
    (lo : nat) (hi : option nat) (s : string) : option (string * list string) :=
  let stop :=
    match lo with
    | O => (λ r, (EmptyString, r)) <$> k s
    | S _ => None
    end in
  match s with
  | String c s' =>
      if cls c && bound_left hi
      then match rep_here cls k (pred lo) (pred <$> hi) s' with
           | Some (piece, r) => Some (String c piece, r)
           | None => stop
           end
      else stop
  | EmptyString => stop
  end.

Fixpoint match_here (p : list atom) (s : string) : option (list string) :=
  match p with
  | [] => Some []
  | Chr c :: p' =>
      match s with
      | String a s' =>
          if decide (a = c)
          then (λ r, String c EmptyString :: r) <$> match_here p' s'
          else None
      | EmptyString => None
      end
  | Rep cls lo hi :: p' =>
      (λ '(piece, r), piece :: r) <$> rep_here cls (match_here p') lo hi s
  end.

(** The text of a match. *)
Definition group0 (pieces : list string) : string := String.concat "" pieces.

(** [re.finditer]: the matches from left to right, each search resuming
    where the previous match ended. *)
Fixpoint finditer_go (p : list atom) (skip : nat) (s : string)
    : list (list string) :=
  match skip, s with
  | S k, String _ s' => finditer_go p k s'
  | S _, EmptyString => []
  | O, _ =>
      let next (n : nat) :=
        match s with
        | String _ s' => finditer_go p n s'
        | EmptyString => []
        end in
      match match_here p s with
      | Some pieces => pieces :: next (String.length (group0 pieces) - 1)%nat
      | None => next O
      end
  end.

Definition finditer (p : list atom) (s : string) : list (list string) :=
  finditer_go p 0 s.

(** [re.findall] for a pattern without groups, or with one group around
    the whole pattern. *)
Definition findall (p : list atom) (s : string) : list string :=
  group0 <$> finditer p s.

(** [re.search]: the first match, if any. *)
Definition search (p : list atom) (s : string) : option (list string) :=
  head (finditer p s).

(** The literal text [s] as a pattern, as [re.escape] makes it. *)
Fixpoint escape (s : string) : list atom :=
  match s with
  | EmptyString => []
  | String c s' => Chr c :: escape s'
  end.

Definition dquote : ascii := ascii_of_N 34.

Definition isdigit (c : ascii) : bool :=
  let n := N_of_ascii c in ((48 <=? n) && (n <=? 57))%N.

(** [[a-f0-9-]] *)
Definition ishexdash (c : ascii) : bool :=
  let n := N_of_ascii c in
  ((97 <=? n) && (n <=? 102) || (48 <=? n) && (n <=? 57) || (n =? 45))%N.

(** [.] *)
Definition any : atom := Rep (λ c, bool_decide (c ≠ newline)) 1 (Some 1%nat).

(** [[0-9]{1,3}] *)
Definition octet : atom := Rep isdigit 1 (Some 3%nat).

Definition dot : atom := Chr "."%char.

End Re.

Import Re.

(** ** The BeautifulSoup tree *)

Module Soup.

(** A node is a run of text or a tag with its attributes and children; the
    [BeautifulSoup] object itself is the tag that holds the document. *)
#[warnings="-register-all"]
Inductive node :=
| Text (s : string)
| Tag (name : string) (attrs : gmap string string) (children : list node).

(** [node.text]: the text of the node's strings, in document order. *)
Fixpoint text (n : node) : string :=
  match n with
  | Text s => s
  | Tag _ _ cs => String.concat "" (List.map text cs)
  end.

(** The nodes below [n], in document order. *)
Fixpoint descendants (n : node) : list node :=
  match n with
  | Text _ => []
  | Tag _ _ cs => List.flat_map (λ c, c :: descendants c) cs
  end.

Definition is_tag (name : string) (n : node) : bool :=
  match n with
  | Tag nm _ _ => bool_decide (nm = name)
  | Text _ => false
  end.

(** [n.findAll(name)] *)
Definition findAll (name : string) (n : node) : list node :=
  List.filter (is_tag name) (descendants n).

(** [n.find(name, attrs={})] *)
Definition find (name : string) (n : node) : option node :=
  head (findAll name n).

(** The white-space separated tokens of an attribute value. *)
Fixpoint tokens_go (cur : option string) (s : string) : list string :=
  match s with
  | EmptyString => option_list (String.rev <$> cur)
  | String a s' =>
      if isspace a
      then option_list (String.rev <$> cur) ++ tokens_go None s'
      else tokens_go (Some (from_option (String a) (String a "") cur)) s'
  end.

Definition has_class (cls : string) (n : node) : bool :=
  match n with
  | Tag _ attrs _ =>
      match attrs !! "class" with
      | Some v => bool_decide (cls ∈ tokens_go None v)
      | None => false
      end
  | Text _ => false
  end.

(** [n.find_all(name, class_=cls)] *)
Definition find_all_class (name cls : string) (n : node) : list node :=
  List.filter (has_class cls) (findAll name n).

End Soup.

Import Soup.

(** ** The libraries the client calls *)

Inductive request :=
| GET (url : string)
| POST (url : string) (headers data : gmap string string).

Record response := {
  status_code : Z;
  resp_text : string;
  content : string;
}.

(** What the client does to the outside, in the order it does it. *)
Inductive event :=
| EvPrint (msg : string)
| EvRequest (rq : request)
| EvSoup (markup : string).

(** The behaviour of the libraries the module leaves open: how
    BeautifulSoup's [html.parser] reads a document, how it writes a tag back
    ([str(tag)]), and what the network answers to a request after the calls
    made so far: a response of any status, or an exception of [requests]. *)
Class Libs := {
  html_parser : string → node;
  tag_str : node → string;
  net : list event → request → result response;
}.

(** [base64.b64encode(b).decode('utf-8')] *)
Definition b64_alphabet : string :=
  "ABCDEFGHIJKLMNOPQRSTUVWXYZabcdefghijklmnopqrstuvwxyz0123456789+/".

Definition b64_char (n : N) : ascii :=
  default "="%char (String.get (N.to_nat n) b64_alphabet).

Fixpoint b64encode (s : string) : string :=
  match s with
  | EmptyString => EmptyString
  | String a EmptyString =>
      let x := N_of_ascii a in
      String (b64_char (x / 4)) (String (b64_char (x mod 4 * 16)) "==")
  | String a (String b EmptyString) =>
      let x := N_of_ascii a in
      let y := N_of_ascii b in
      String (b64_char (x / 4))
        (String (b64_char (x mod 4 * 16 + y / 16))
           (String (b64_char (y mod 16 * 4)) "="))
  | String a (String b (String c s')) =>
      let x := N_of_ascii a in
      let y := N_of_ascii b in
      let z := N_of_ascii c in
      String (b64_char (x / 4))
        (String (b64_char (x mod 4 * 16 + y / 16))
           (String (b64_char (y mod 16 * 4 + z / 64))
              (String (b64_char (z mod 64)) (b64encode s'))))
  end%N.

(** ** The row extractor *)

(** [for x in l: body], threading the variables the body assigns. *)
Fixpoint for_each {A S} (body : S → A → result S) (s : S) (l : list A)
    : result S :=
  match l with
  | [] => Ok s
  | x :: l' => s' ← body s x; for_each body s' l'
  end.

(** [try: body  except Exception as e: handler] *)
Definition try_except {A} (body : result A) (handler : exn → result A)
    : result A :=
  match body with
  | Ok a => Ok a
  | Raise e => handler e
  end.

Definition pattern_ip : list atom :=
  [octet; dot; octet; dot; octet; dot; octet].

Definition br : string := "<br/>".
Definition nl : string := String newline "".

(** The non-blank lines of [s], each stripped, joined by newlines. *)
Definition stripped_lines (s : string) : list string :=
  strip <$> List.filter (λ line, truthy (strip line)) (splitlines s).

Section Extractor.
Context `{!Libs}.

(** [str(td).split('<br/>')[0].split('>')[1].split('<')[0]] *)
Definition host_of (td : node) : result string :=
  before_br ← getitem (split br (tag_str td)) 0;
  after_gt ← getitem (split ">" before_br) 1;
  getitem (split "<" after_gt) 0.

(** The body of the [try] of [retrieve_results], on the cells of one row. *)
Definition row_data (tds : list node) : result (gmap string value) :=
  td0 ← getitem tds 0;
  host ← host_of td0;
  td1 ← getitem tds 1;
  ip ← getitem (findall pattern_ip (text td1)) 0;
  let reverse_dns :=
    match find "span" td1 with
    | Some span => text span
    | None => ""
    end in
  autonomous_system ←
    (if bool_decide (2 < length tds) then text <$> getitem tds 2 else Ok "");
  asn ←
    (if contains newline autonomous_system
     then getitem (split nl autonomous_system) 1 else Ok "");
  asn_range ←
    (if contains newline autonomous_system
     then getitem (split nl autonomous_system) 2 else Ok "");
  span_elements ←
    (if bool_decide (3 < length tds)
     then find_all_class "span" "sm-text" <$> getitem tds 3 else Ok []);
  asn_name ←
    (if bool_decide (0 < length span_elements)
     then (λ e, strip (text e)) <$> getitem span_elements 0 else Ok "");
  country ←
    (if bool_decide (1 < length span_elements)
     then (λ e, strip (text e)) <$> getitem span_elements 1 else Ok "");
  open_service ←
    (if bool_decide (4 < length tds)
     then (λ td, join nl (stripped_lines (text td))) <$> getitem tds 4
     else Ok "N/A");
  Ok (<["open_service" := VStr open_service]>
      (<["asn_country" := VStr country]>
       (<["asn_name" := VStr asn_name]>
        (<["asn_range" := VStr asn_range]>
         (<["as" := VStr asn]>
          (<["reverse_dns" := VStr reverse_dns]>
           (<["ip" := VStr ip]>
            (<["host" := VStr host]> ∅)))))))).

(** One turn of the loop over the rows. *)
Definition row_step (res : list value) (tr : node) : result (list value) :=
  let tds := findAll "td" tr in
  try_except
    (data ← row_data tds; Ok (res ++ [VDict data]))
    (λ _, Ok res).

Definition retrieve_results (table : node) : result (list value) :=
  let trs := findAll "tr" table in
  for_each row_step [] trs.

Definition retrieve_txt_record (table : node) : result (list value) :=
  for_each (λ res td, Ok (res ++ [VStr (strip (text td))])) []
    (findAll "td" table).

End Extractor.

(** ** The client *)

(** A computation of the client: it extends the trace of the calls made so
    far and returns a value or raises. *)
Definition IO (A : Type) : Type := list event → result A * list event.

Global Instance IO_ret : MRet IO := λ A a t, (Ok a, t).
Global Instance IO_bind : MBind IO := λ A B k m t,
  match m t with
  | (Ok a, t') => k a t'
  | (Raise e, t') => (Raise e, t')
  end.

Definition lift {A} (r : result A) : IO A := λ t, (r, t).

Definition print (msg : string) : IO unit := λ t, (Ok (), t ++ [EvPrint msg]).

Definition when (b : bool) (m : IO unit) : IO unit :=
  if b then m else mret ().

(** [try: body  except Exception as e: handler] *)
Definition try_io {A} (body : IO A) (handler : exn → IO A) : IO A := λ t,
  match body t with
  | (Ok a, t') => (Ok a, t')
  | (Raise e, t') => handler e t'
  end.

Record client := {
  verbose : bool;
  authorization : option string;
}.

(** Truth value of [self.authorization], a [str] or [None]. *)
Definition truthy_opt (o : option string) : bool :=
  match o with
  | Some s => truthy s
  | None => false
  end.

(** The pattern of [get_token]: an opening brace, the word Authorization
    between double quotes, a colon, at most one white-space character, and
    between double quotes a group of one or more characters other than the
    double quote. *)
Definition pattern_token : list atom :=
  escape ("{" +:+ String dquote "Authorization" +:+ String dquote ":")
  ++ [Rep isspace 0 (Some 1%nat); Chr dquote;
      Rep (λ c, bool_decide (c ≠ dquote)) 1 None; Chr dquote].

(** The index of the piece of group 1 in a match of [pattern_token]. *)
Definition token_group : nat := 19.

(** [https://api.dnsdumpster.com/static/maps/<domain>-[a-f0-9-]+\.png]; the
    dots of the host name are not escaped in the source. *)
Definition pattern_asset (dir : string) (domain : string) (ext : string)
    : list atom :=
  escape "https://api" ++ [any] ++ escape "dnsdumpster" ++ [any]
  ++ escape ("com/static/" +:+ dir +:+ "/") ++ escape domain
  ++ [Chr "-"%char; Rep ishexdash 1 None; dot] ++ escape ext.

Definition set_record (k : string) (v : value) (res : gmap string value)
    : result (gmap string value) :=
  match res !! "dns_records" with
  | Some (VDict d) => Ok (<["dns_records" := VDict (<[k := v]> d)]> res)
  | Some _ => Raise (TypeError "object does not support item assignment")
  | None => Raise (KeyError "dns_records")
  end.

Section Client.
Context `{!Libs}.

Definition requests (rq : request) : IO response := λ t,
  (net t rq, t ++ [EvRequest rq]).

Definition BeautifulSoup (markup : string) : IO node := λ t,
  (Ok (html_parser markup), t ++ [EvSoup markup]).

Definition get_token (verbose : bool) : IO (option string) :=
  let url := "https://dnsdumpster.com/" in
  response ← requests (GET url);
  if bool_decide (status_code response = 200%Z) then
    match Re.search pattern_token (resp_text response) with
    | Some pieces =>
        let token := default "" (pieces !! token_group) in
        when verbose (print ("Authorization Token found: " +:+ token));;
        mret (Some token)
    | None =>
        when verbose (print "Authorization Token not found in HTML content.");;
        mret None
    end
  else
    when verbose
      (print ("Error in request: " +:+ pretty (status_code response)));;
    mret None.

(** [DNSDumpsterAPI(verbose)] *)
Definition init (verbose : bool) : IO client :=
  token ← get_token verbose;
  mret {| verbose := verbose; authorization := token |}.

Definition get_dnsdumpster (self : client) (target : string)
    : IO (option string) :=
  if negb (truthy_opt (authorization self)) then
    print "Authorization token is missing.";;
    mret None
  else
    let url := "https://api.dnsdumpster.com/htmld/" in
    let headers : gmap string string :=
      {[ "Authorization" := default "" (authorization self) ]} in
    let data : gmap string string := {[ "target" := target ]} in
    response ← requests (POST url headers data);
    if bool_decide (status_code response ≠ 200%Z) then
      when (verbose self)
        (print ("Error: Request failed with status code "
                +:+ pretty (status_code response)));;
      mret None
    else
      mret (Some (resp_text response)).

(** One of the two [try] blocks of [parse_dnsdumpster]: find the asset's
    URL in the page, fetch it and encode what came back. *)
Definition fetch_asset (self : client) (pattern : list atom) (html : string)
    (found failed : string) : IO value :=
  try_io
    (asset_url ← lift (getitem (findall pattern html) 0);
     when (verbose self) (print (found +:+ asset_url));;
     response ← requests (GET asset_url);
     mret (VStr (b64encode (content response))))
    (λ e,
     when (verbose self) (print (failed +:+ exn_str e));;
     mret VNone).

Definition parse_dnsdumpster (self : client) (html domain : string)
    : IO value :=
  soup ← BeautifulSoup html;
  let tables := findAll "table" soup in
  let res : gmap string value :=
    <["dns_records" := VDict ∅]> (<["domain" := VStr domain]> ∅) in
  if bool_decide (4 ≤ length tables) then
    res ← lift (table ← getitem tables 1;
                rows ← retrieve_results table;
                set_record "a" (VList rows) res);
    res ← lift (table ← getitem tables 2;
                rows ← retrieve_results table;
                set_record "mx" (VList rows) res);
    res ← lift (table ← getitem tables 3;
                rows ← retrieve_results table;
                set_record "ns" (VList rows) res);
    res ← lift (table ← getitem tables 4;
                rows ← retrieve_txt_record table;
                set_record "txt" (VList rows) res);
    image_data ←
      fetch_asset self (pattern_asset "maps" domain "png") html
        "Network mapping image URL: " "Error obtaining mapping image: ";
    let res := <["image_data" := image_data]> res in
    xls_data ←
      fetch_asset self (pattern_asset "xlsx" domain "xlsx") html
        "XLS URL: " "Error obtaining XLS file: ";
    let res := <["xls_data" := xls_data]> res in
    mret (VDict res)
  else
    when (verbose self) (print "Not enough tables found to process.");;
    mret VNone.

Definition search (self : client) (domain : string) : IO value :=
  when (verbose self) (print ("Searching for domain: " +:+ domain));;
  html ← get_dnsdumpster self domain;
  if truthy_opt html
  then parse_dnsdumpster self (default "" html) domain
  else mret VNone.

End Client.

(** ** Fixtures: one concrete set of libraries

    A writer of tags in the manner of BeautifulSoup's [decode] (attributes
    in key order), a parser and a network that answer from tables. *)

Module Fixture.

Fixpoint escape_text (s : string) : string :=
  match s with
  | EmptyString => EmptyString
  | String c s' =>
      (if decide (c = "&"%char) then "&amp;"
       else if decide (c = "<"%char) then "&lt;"
       else if decide (c = ">"%char) then "&gt;"
       else String c "") +:+ escape_text s'
  end.

Definition void_tags : list string :=
  ["area"; "base"; "br"; "col"; "embed"; "hr"; "img"; "input"; "link";
   "meta"; "param"; "source"; "track"; "wbr"].

Definition render_attrs (attrs : gmap string string) : string :=
  String.concat ""
    ((λ kv, " " +:+ kv.1 +:+ "=" +:+ String dquote (escape_text kv.2)
            +:+ String dquote "")
     <$> map_to_list attrs).

Fixpoint render (n : node) : string :=
  match n with
  | Text s => escape_text s
  | Tag name attrs cs =>
      "<" +:+ name +:+ render_attrs attrs
      +:+ (if bool_decide (name ∈ void_tags) && bool_decide (length cs = 0%nat)
           then "/>"
           else ">" +:+ String.concat "" (List.map render cs)
                +:+ "</" +:+ name +:+ ">")
  end.

Definition document (cs : list node) : node := Tag "[document]" ∅ cs.

Definition el (name : string) (cs : list node) : node := Tag name ∅ cs.

(** The libraries of a test: [pages] gives the tree of each document the
    parser knows, [answers] what the network returns for each request it
    knows; an unknown document is empty, an unknown request fails. *)
Definition libs (pages : list (string * node))
    (answers : list (request * result response)) : Libs := {|
  html_parser markup :=
    default (document [])
      (snd <$> List.find (λ p, bool_decide (p.1 = markup)) pages);
  tag_str := render;
  net _ rq :=
    default (Raise (RequestException "connection refused"))
      (snd <$> List.find
         (λ p, match p.1, rq with
               | GET u, GET u' => bool_decide (u = u')
               | POST u _ _, POST u' _ _ => bool_decide (u = u')
               | _, _ => false
               end) answers);
|}.

(** A row of a record table: a host cell with an annotation after a line
    break, an address cell with the reverse name in a span, and further
    cells. *)
Definition row (host ip rdns : string) (more : list node) : node :=
  el "tr" (el "td" [Text host; el "br" []; Text "note"]
           :: el "td" [Text ip; el "span" [Text rdns]]
           :: more).

Definition cell (s : string) : node := el "td" [Text s].

Definition classed (cls s : string) : node :=
  Tag "span" {[ "class" := cls ]} [Text s].

Definition table (rows : list node) : node := el "table" rows.

(** The markup of a document: that of its children. *)
Definition html_of (doc : node) : string :=
  match doc with
  | Tag _ _ cs => String.concat "" (List.map render cs)
  | Text s => escape_text s
  end.

(** A row with all five cells. *)
Definition full_row : node :=
  row "www.example.com" "192.0.2.1" "host.example.com"
    [cell (nl +:+ "AS64496" +:+ nl +:+ "192.0.2.0/24");
     el "td" [classed "sm-text" " EXAMPLE-NET "; classed "sm-text bold" "US"];
     cell ("http: nginx" +:+ nl +:+ "   " +:+ nl +:+ "  ssh: OpenSSH ")].

(** A row with two cells, text after the address. *)
Definition short_row : node :=
  row "ns1.example.com" "192.0.2.1 AS1234" "" [].

(** A row without an address. *)
Definition bad_row : node := row "bad.example.com" "no address here" "" [].

(** A row whose third cell holds one line break. *)
Definition one_break_row : node :=
  row "mx.example.com" "192.0.2.25" ""
    [cell ("AS64496" +:+ nl +:+ "192.0.2.0/24")].

(** A row whose fifth cell reads N/A. *)
Definition sentinel_row : node :=
  row "ns2.example.com" "192.0.2.53" "" [cell ""; cell ""; cell "N/A"].

Definition map_url : string :=
  "https://api.dnsdumpster.com/static/maps/example.com-0a1b2c3d-4e5f.png".

Definition xls_url : string :=
  "https://api.dnsdumpster.com/static/xlsx/example.com-0a1b2c3d-4e5f.xlsx".

Definition links : node :=
  table [el "tr" [el "td" [Tag "img" {[ "src" := map_url ]} [];
                           Tag "a" {[ "href" := xls_url ]} [Text "xlsx"]]]].

Definition page (tables : list node) : node :=
  document [el "html" [el "body" tables]].

Definition four_tables : node :=
  page [links; table [short_row]; table [short_row]; table [short_row]].

Definition five_tables : node :=
  page [links; table [full_row; bad_row; short_row]; table [short_row];
        table [short_row];
        table [el "tr" [cell " v=spf1 -all "; cell "site-verification=abc"]]].

Definition api_url : string := "https://api.dnsdumpster.com/htmld/".

Definition answer (status : Z) (body : string) : result response :=
  Ok {| status_code := status; resp_text := body; content := body |}.

Definition pages : list (string * node) :=
  [(html_of four_tables, four_tables); (html_of five_tables, five_tables)].

(** The service answers the query with the page of five tables, the map
    with status 404, and fails on the spreadsheet. *)
Definition demo : Libs :=
  libs pages
    [(POST api_url ∅ ∅, answer 200 (html_of five_tables));
     (GET map_url, answer 404 "Not Found")].

(** The service answers the query with status 200 and no body. *)
Definition silent : Libs := libs pages [(POST api_url ∅ ∅, answer 200 "")].

(** The service answers the query with status 503. *)
Definition down : Libs :=
  libs pages [(POST api_url ∅ ∅, answer 503 "Service Unavailable")].

Definition quiet : client :=
  {| verbose := false; authorization := Some "token" |}.

Definition chatty : client :=
  {| verbose := true; authorization := Some "token" |}.

Definition anonymous : client :=
  {| verbose := false; authorization := None |}.

Definition not_found : response :=
  {| status_code := 404; resp_text := "Not Found"; content := "Not Found" |}.

Definition no_body : response :=
  {| status_code := 200; resp_text := ""; content := "" |}.

Definition unavailable : response :=
  {| status_code := 503; resp_text := "Service Unavailable";
     content := "Service Unavailable" |}.

(** The parse of the page of five tables, and what it returns. *)
Definition parse_five : result value * list event :=
  @parse_dnsdumpster demo quiet (html_of five_tables) "example.com" [].

Definition parsed : value :=
  match parse_five.1 with
  | Ok v => v
  | Raise _ => VNone
  end.

(** The record read from the row with five cells. *)
Definition full_row_data : gmap string value :=
  match @row_data demo (findAll "td" full_row) with
  | Ok data => data
  | Raise _ => ∅
  end.

(** The match of the map's pattern in the page of five tables. *)
Definition map_pieces : list string :=
  default []
    (Re.search (pattern_asset "maps" "example.com" "png")
       (html_of five_tables)).

(** A landing page that carries a token, and the site that serves it. *)
Definition token_page : string :=
  "<script>h = {" +:+ String dquote "Authorization" +:+ String dquote ": "
  +:+ String dquote "abc.def" +:+ String dquote "};</script>".

Definition landing_site : Libs :=
  libs [] [(GET "https://dnsdumpster.com/", answer 200 token_page)].

End Fixture.

(** ** What the properties below speak of *)

Fixpoint forall_chars (P : ascii → bool) (s : string) : bool :=
  match s with
  | EmptyString => true
  | String c s' => P c && forall_chars P s'
  end.

Definition within (hi : option nat) (n : nat) : Prop :=
  match hi with
  | Some h => n ≤ h
  | None => True
  end.

(** [piece] is a text the atom [a] can consume. *)
Definition atom_ok (a : atom) (piece : string) : Prop :=
  match a with
  | Chr c => piece = String c ""
  | Rep cls lo hi =>
      forall_chars cls piece ∧ lo ≤ String.length piece
      ∧ within hi (String.length piece)
  end.

(** [m] is a text the pattern [p] matches in full. *)
Definition matches (p : list atom) (m : string) : Prop :=
  ∃ pieces, Forall2 atom_ok p pieces ∧ m = group0 pieces.

(** [m] stands in [s] after [i] characters. *)
Definition occurs_at (s : string) (i : nat) (m : string) : Prop :=
  ∃ pre post, s = pre +:+ m +:+ post ∧ String.length pre = i.

(** One to three decimal digits. *)
Definition is_octet (s : string) : Prop :=
  forall_chars isdigit s ∧ 1 ≤ String.length s ≤ 3.

(** Four groups of one to three digits, separated by dots. *)
Definition dotted_quad (s : string) : Prop :=
  ∃ a b c d, is_octet a ∧ is_octet b ∧ is_octet c ∧ is_octet d
             ∧ s = a +:+ "." +:+ b +:+ "." +:+ c +:+ "." +:+ d.

(** What one row contributes to the list of [retrieve_results]. *)
Definition row_entry `{!Libs} (tr : node) : option value :=
  match row_data (findAll "td" tr) with
  | Ok data => Some (VDict data)
  | Raise _ => None
  end.

Definition row_keys : gset string :=
  {[ "host"; "ip"; "reverse_dns"; "as"; "asn_range"; "asn_name";
     "asn_country"; "open_service" ]}.

Definition record_keys : gset string := {[ "a"; "mx"; "ns"; "txt" ]}.

Definition result_keys : gset string :=
  {[ "domain"; "dns_records"; "image_data"; "xls_data" ]}.

Definition is_request (e : event) : bool :=
  match e with
  | EvRequest _ => true
  | _ => false
  end.

Definition is_soup (e : event) : bool :=
  match e with
  | EvSoup _ => true
  | _ => false
  end.

(** The network calls and the parser calls recorded in a trace. *)
Definition network_calls (t : list event) : list event :=
  List.filter is_request t.

Definition parser_calls (t : list event) : list event :=
  List.filter is_soup t.

(** The record [row_data] builds from the fields it has read. *)
Definition entry (host ip reverse_dns asn asn_range asn_name country
    open_service : string) : gmap string value :=
  <["open_service" := VStr open_service]>
    (<["asn_country" := VStr country]>
     (<["asn_name" := VStr asn_name]>
      (<["asn_range" := VStr asn_range]>
       (<["as" := VStr asn]>
        (<["reverse_dns" := VStr reverse_dns]>
         (<["ip" := VStr ip]>
          (<["host" := VStr host]> ∅))))))).

(** The fields that depend on optional cells only, as [row_data] reads them:
    the text of the third cell, the classed spans of the fourth, and the
    services of the fifth. *)
Definition as_text (tds : list node) : string :=
  from_option text "" (tds !! 2).

Definition name_spans (tds : list node) : list node :=
  from_option (find_all_class "span" "sm-text") [] (tds !! 3).

Definition span_text (spans : list node) (i : nat) : string :=
  from_option (λ e, strip (text e)) "" (spans !! i).

Definition open_service_of (tds : list node) : string :=
  from_option (λ td, join nl (stripped_lines (text td))) "N/A" (tds !! 4).

Definition reverse_dns_of (td1 : node) : string :=
  from_option text "" (find "span" td1).

(** The mapping of [dns_records] and the record [parse_dnsdumpster]
    returns, from their parts. *)
Definition records (a mx ns txt : list value) : gmap string value :=
  <["txt" := VList txt]>
    (<["ns" := VList ns]> (<["mx" := VList mx]> (<["a" := VList a]> ∅))).

Definition query_result (domain : string) (recs : gmap string value)
    (image_data xls_data : value) : gmap string value :=
  <["xls_data" := xls_data]>
    (<["image_data" := image_data]>
     (<["dns_records" := VDict recs]> (<["domain" := VStr domain]> ∅))).

(** The trace once [search] has printed its opening line. *)
Definition announced (self : client) (domain : string) (t : list event)
    : list event :=
  t ++ (if verbose self then [EvPrint ("Searching for domain: " +:+ domain)]
        else []).

(** The request [get_dnsdumpster] posts. *)
Definition query (self : client) (target : string) : request :=
  POST "https://api.dnsdumpster.com/htmld/"
    {[ "Authorization" := default "" (authorization self) ]}
    {[ "target" := target ]}.

(** The patterns of the two assets. *)
Definition pattern_map (domain : string) : list atom :=
  pattern_asset "maps" domain "png".

Definition pattern_xls (domain : string) : list atom :=
  pattern_asset "xlsx" domain "xlsx".

(** Where the request of an asset is made from: the trace once the URL has
    been printed. *)
Definition found_trace (self : client) (found url : string) (t : list event)
    : list event :=
  t ++ (if verbose self then [EvPrint (found +:+ url)] else []).

(** The entries of a record table and of the TXT table. *)
Definition entries_of `{!Libs} (table : node) : list value :=
  omap row_entry (findAll "tr" table).

Definition txt_of (table : node) : list value :=
  (λ td, VStr (strip (text td))) <$> findAll "td" table.

(** The two asset fetches as [parse_dnsdumpster] makes them. *)
Definition fetch_map `{!Libs} (self : client) (html domain : string)
    : IO value :=
  fetch_asset self (pattern_map domain) html
    "Network mapping image URL: " "Error obtaining mapping image: ".

Definition fetch_xls `{!Libs} (self : client) (html domain : string)
    : IO value :=
  fetch_asset self (pattern_xls domain) html
    "XLS URL: " "Error obtaining XLS file: ".

(** The page [get_token] reads, and the text that opens the token in it. *)
Definition landing : string := "https://dnsdumpster.com/".

Definition token_opening : string :=
  "{" +:+ String dquote "Authorization" +:+ String dquote ":".

(** The request [fetch_asset] makes for a pattern in a page: one GET of the
    first match, if there is a match. *)
Definition asset_requests (pattern : list atom) (html : string) : list event :=
  match Re.search pattern html with
  | Some pieces => [EvRequest (GET (group0 pieces))]
  | None => []
  end.

(** A text that [strip] leaves as it is: no white space at either end. *)
Definition trimmed (s : string) : Prop := strip s = s.

(** The first character of a text, if any, is not white space. *)
Definition leads_clean (s : string) : bool :=
  match s with
  | String c _ => negb (isspace c)
  | EmptyString => true
  end.

Definition is_print (e : event) : bool :=
  match e with
  | EvPrint _ => true
  | _ => false
  end.

(** What a trace prints, and what is left of it without the prints. *)
Definition prints (t : list event) : list event := List.filter is_print t.

Definition silence (t : list event) : list event :=
  List.filter (λ e, negb (is_print e)) t.

(** The same client, not verbose. *)
Definition quiet_of (self : client) : client :=
  {| verbose := false; authorization := authorization self |}.

(** The network cannot see what the client prints: its answer to a request
    is the same after two traces that differ in prints only. *)
Definition deaf_to_prints `{!Libs} : Prop :=
  ∀ t t' rq, silence t = silence t' → net t rq = net t' rq.

(** * Properties *)

(** ** Strings *)

Lemma str_app_cons (c : ascii) (s t : string) :
  String c s +:+ t = String c (s +:+ t).
Proof. reflexivity. Qed.

Lemma str_app_nil_l (s : string) : "" +:+ s = s.
Proof. reflexivity. Qed.

Lemma str_app_nil_r (s : string) : s +:+ "" = s.
Proof. induction s as [|c s IH]; [done|]. by rewrite str_app_cons, IH. Qed.

Lemma str_app_assoc (s t u : string) : (s +:+ t) +:+ u = s +:+ t +:+ u.
Proof. induction s as [|c s IH]; [done|]. by rewrite !str_app_cons, IH. Qed.

Lemma str_length_app (s t : string) :
  String.length (s +:+ t) = String.length s + String.length t.
Proof. induction s as [|c s IH]; [done|]. rewrite str_app_cons. simpl. by rewrite IH. Qed.

Lemma group0_cons (x : string) (r : list string) :
  group0 (x :: r) = x +:+ group0 r.
Proof.
  unfold group0. destruct r as [|y r]; simpl.
  - by rewrite str_app_nil_r.
  - reflexivity.
Qed.

Lemma forall_chars_app (P : ascii → bool) (s t : string) :
  forall_chars P (s +:+ t) = forall_chars P s && forall_chars P t.
Proof.
  induction s as [|c s IH]; [done|].
  rewrite str_app_cons. simpl. rewrite IH. by rewrite andb_assoc.
Qed.

(** ** The matcher finds exactly the matches of the pattern *)

Section Matcher.
Variable cls : ascii → bool.
Variable k : string → option (list string).

Lemma rep_here_sound (s : string) :
  ∀ lo hi piece r,
    rep_here cls k lo hi s = Some (piece, r) →
    ∃ rest, s = piece +:+ rest ∧ k rest = Some r
            ∧ atom_ok (Rep cls lo hi) piece.
Proof.
  assert (Hstop : ∀ (s : string) lo hi piece r,
    match lo with
    | O => (λ r, (EmptyString, r)) <$> k s
    | S _ => None
    end = Some (piece, r) →
    ∃ rest, s = piece +:+ rest ∧ k rest = Some r
            ∧ atom_ok (Rep cls lo hi) piece).
  { intros s0 [|lo] hi piece r Hs; [|done].
    destruct (k s0) as [r0|] eqn:Hk; simplify_eq/=.
    exists s0. repeat split; auto with lia. by destruct hi; simpl; lia. }
  induction s as [|c s IH]; intros lo hi piece r Hr; simpl in Hr.
  - by apply Hstop.
  - destruct (cls c && bound_left hi) eqn:Hc; [|by apply Hstop].
    destruct (rep_here cls k (pred lo) (pred <$> hi) s) as [[p' r']|] eqn:Hrec;
      [|by apply Hstop].
    simplify_eq. apply andb_prop in Hc as [Hc Hb].
    destruct (IH _ _ _ _ Hrec) as (rest & -> & Hk & Hall & Hlo & Hhi).
    exists rest. rewrite str_app_cons. repeat split; auto.
    + simpl. by rewrite Hc.
    + simpl. lia.
    + destruct hi as [[|h]|]; simplify_eq/=; lia.
Qed.

Lemma rep_here_complete (piece rest : string) :
  ∀ lo hi,
    atom_ok (Rep cls lo hi) piece → is_Some (k rest) →
    is_Some (rep_here cls k lo hi (piece +:+ rest)).
Proof.
  induction piece as [|c piece IH]; intros lo hi (Hall & Hlo & Hhi) Hk.
  - simpl in Hlo. assert (lo = 0) as -> by lia. simpl.
    destruct Hk as [r Hk].
    destruct rest as [|c rest]; simpl; rewrite ?Hk; [by eexists|].
    destruct (cls c && bound_left hi); [|by eexists].
    destruct (rep_here cls k 0 (pred <$> hi) rest) as [[??]|]; by eexists.
  - rewrite str_app_cons. simpl in *.
    apply andb_True in Hall as [Hc%Is_true_true Hall]. rewrite Hc.
    assert (bound_left hi = true) as ->.
    { destruct hi as [[|h]|]; simpl in *; auto; lia. }
    simpl.
    destruct (IH (pred lo) (pred <$> hi)) as [[p' r'] ->]; [|done|by eexists].
    repeat split; auto; [lia|].
    destruct hi as [h|]; simpl in *; [lia|done].
Qed.

End Matcher.

Lemma match_here_sound (p : list atom) :
  ∀ s pieces,
    match_here p s = Some pieces →
    Forall2 atom_ok p pieces ∧ ∃ rest, s = group0 pieces +:+ rest.
Proof.
  induction p as [|a p IH]; intros s pieces Hm; simpl in Hm.
  - simplify_eq. split; [constructor | by exists s].
  - destruct a as [c|cls lo hi].
    + destruct s as [|a s]; [done|]. case_decide; [|done]. subst a.
      destruct (match_here p s) as [r|] eqn:Hr; simplify_eq/=.
      destruct (IH _ _ Hr) as (Hok & rest & ->).
      split; [by constructor|]. exists rest.
      by rewrite group0_cons, str_app_assoc.
    + destruct (rep_here cls (match_here p) lo hi s) as [[piece r]|] eqn:Hr;
        simplify_eq/=.
      apply rep_here_sound in Hr as (rest & -> & Hk & Hok).
      destruct (IH _ _ Hk) as (Hoks & rest' & ->).
      split; [by constructor|]. exists rest'.
      by rewrite group0_cons, str_app_assoc.
Qed.

Lemma match_here_complete (p : list atom) :
  ∀ pieces rest,
    Forall2 atom_ok p pieces →
    is_Some (match_here p (group0 pieces +:+ rest)).
Proof.
  induction p as [|a p IH]; intros pieces rest Hok.
  - by eexists.
  - inversion Hok as [|? piece ? r Ha Hr]; subst.
    rewrite group0_cons, str_app_assoc. destruct a as [c|cls lo hi]; simpl.
    + simpl in Ha. subst piece. rewrite str_app_cons, str_app_nil_l. simpl.
      rewrite decide_True by done.
      destruct (IH r rest Hr) as [x ->]. by eexists.
    + destruct (rep_here_complete cls (match_here p) piece
                  (group0 r +:+ rest) lo hi Ha (IH r rest Hr)) as [[??] ->].
      by eexists.
Qed.

Lemma occurs_at_0 (s m : string) :
  occurs_at s 0 m ↔ ∃ post, s = m +:+ post.
Proof.
  split.
  - intros (pre & post & -> & Hlen). destruct pre; [|done]. by exists post.
  - intros [post ->]. by exists "", post.
Qed.

Lemma occurs_at_S (c : ascii) (s : string) (j : nat) (m : string) :
  occurs_at (String c s) (S j) m ↔ occurs_at s j m.
Proof.
  split.
  - intros (pre & post & Heq & Hlen). destruct pre as [|a pre]; [done|].
    rewrite str_app_cons in Heq. simplify_eq/=. by exists pre, post.
  - intros (pre & post & -> & Hlen). exists (String c pre), post.
    split; [done | by simpl; f_equal].
Qed.

Lemma occurs_at_empty (j : nat) (m : string) :
  occurs_at "" j m → j = 0 ∧ m = "".
Proof.
  intros (pre & post & Heq & Hlen). destruct pre; [|done].
  destruct m; [|done]. by simpl in Hlen.
Qed.

Lemma match_here_None (p : list atom) (s m : string) :
  match_here p s = None → occurs_at s 0 m → ¬ matches p m.
Proof.
  intros Hn [post ->]%occurs_at_0 (pieces & Hok & ->).
  destruct (match_here_complete p pieces post Hok) as [x Hx]. congruence.
Qed.

Lemma head_finditer (p : list atom) (s : string) :
  head (finditer p s)
  = match match_here p s with
    | Some pieces => Some pieces
    | None =>
        match s with
        | String _ s' => head (finditer p s')
        | EmptyString => None
        end
    end.
Proof.
  unfold finditer. destruct s; simpl; by destruct (match_here p _).
Qed.

(** [re.search] returns what the matcher finds at the leftmost place where
    the pattern matches. *)
Lemma search_leftmost (p : list atom) (s : string) :
  ∀ pieces,
    Re.search p s = Some pieces →
    ∃ pre post,
      s = pre +:+ post ∧ match_here p post = Some pieces
      ∧ ∀ j m, occurs_at s j m → matches p m → String.length pre ≤ j.
Proof.
  unfold Re.search. induction s as [|c s IH]; intros pieces;
    rewrite head_finditer;
    destruct (match_here p _) as [pcs|] eqn:Hm; intros Hs; simplify_eq.
  - exists "", "". repeat split; [done|]. simpl. lia.
  - exists "", (String c s). repeat split; [done|]. simpl. lia.
  - destruct (IH _ Hs) as (pre & post & -> & Hpost & Hleft).
    exists (String c pre), post. repeat split; [done|].
    intros [|j] m Hj Hmm.
    + by destruct (match_here_None _ _ _ Hm Hj).
    + apply occurs_at_S in Hj. specialize (Hleft _ _ Hj Hmm). simpl. lia.
Qed.

Lemma str_app_inv_length (pre pre' x x' : string) :
  pre +:+ x = pre' +:+ x' → String.length pre = String.length pre' →
  pre = pre' ∧ x = x'.
Proof.
  revert pre'. induction pre as [|c pre IH]; intros [|c' pre'] Heq Hlen;
    try done.
  rewrite !str_app_cons in Heq. simplify_eq/=.
  destruct (IH pre') as [-> ->]; done.
Qed.

(** A run of digits ends where the dot stands. *)
Lemma digits_dot_unique (a a' x x' : string) :
  forall_chars isdigit a → forall_chars isdigit a' →
  a +:+ String "." x = a' +:+ String "." x' → a = a' ∧ x = x'.
Proof.
  revert a'. induction a as [|c a IH]; intros [|c' a'] Ha Ha' Heq;
    rewrite ?str_app_cons, ?str_app_nil_l in Heq; simplify_eq/=.
  - done.
  - done.
  - done.
  - apply andb_True in Ha as [_ Ha]. apply andb_True in Ha' as [_ Ha'].
    destruct (IH a') as [-> ->]; done.
Qed.

(** A repetition takes the longest piece after which the rest of the
    pattern still matches. *)
Lemma rep_here_longest (cls : ascii → bool)
    (k : string → option (list string)) (s : string) :
  ∀ lo hi piece r,
    rep_here cls k lo hi s = Some (piece, r) →
    ∀ piece' rest',
      atom_ok (Rep cls lo hi) piece' → s = piece' +:+ rest' →
      is_Some (k rest') →
      String.length piece' ≤ String.length piece.
Proof.
  induction s as [|c s IH]; intros lo hi piece r Hr piece' rest' Hok Heq Hk.
  - destruct piece'; [simpl; lia|done].
  - destruct piece' as [|c' piece']; [simpl; lia|].
    rewrite str_app_cons in Heq. simplify_eq.
    destruct Hok as (Hall & Hlo & Hhi). simpl in *.
    apply andb_True in Hall as [Hc%Is_true_true Hall].
    rewrite Hc in Hr.
    assert (bound_left hi = true) as Hb.
    { destruct hi as [[|h]|]; simpl in *; auto; lia. }
    rewrite Hb in Hr. simpl in Hr.
    assert (atom_ok (Rep cls (pred lo) (pred <$> hi)) piece') as Hok'.
    { repeat split; [done|lia|]. destruct hi as [h|]; simpl in *; [lia|done]. }
    destruct (rep_here_complete cls k piece' rest' _ _ Hok' Hk)
      as [[p0 r0] Hrec].
    rewrite Hrec in Hr. simplify_eq. simpl.
    specialize (IH _ _ _ _ Hrec piece' rest' Hok' eq_refl Hk). lia.
Qed.

Lemma match_here_Rep (cls : ascii → bool) (lo : nat) (hi : option nat)
    (p : list atom) (s : string) (pieces : list string) :
  match_here (Rep cls lo hi :: p) s = Some pieces →
  ∃ piece r rest,
    pieces = piece :: r ∧ rep_here cls (match_here p) lo hi s = Some (piece, r)
    ∧ s = piece +:+ rest ∧ match_here p rest = Some r
    ∧ atom_ok (Rep cls lo hi) piece.
Proof.
  simpl.
  destruct (rep_here cls (match_here p) lo hi s) as [[piece r]|] eqn:Hr;
    intros; simplify_eq/=.
  destruct (rep_here_sound _ _ _ _ _ _ _ Hr) as (rest & -> & Hk & Hok).
  by exists piece, r, rest.
Qed.

Lemma match_here_Chr (c : ascii) (p : list atom) (s : string)
    (pieces : list string) :
  match_here (Chr c :: p) s = Some pieces →
  ∃ r rest,
    pieces = String c "" :: r ∧ s = String c rest ∧ match_here p rest = Some r.
Proof.
  simpl. destruct s as [|a s]; [done|]. case_decide; [|done]. subst a.
  destruct (match_here p s) as [r|] eqn:Hr; intros; simplify_eq/=.
  by exists r, s.
Qed.

(** Where the matcher finds a dotted quad, no dotted quad that starts at the
    same place is longer. *)
Lemma match_here_ip_longest (s : string) (pieces : list string) :
  match_here pattern_ip s = Some pieces →
  ∀ m rest, dotted_quad m → s = m +:+ rest →
            String.length m ≤ String.length (group0 pieces).
Proof.
  unfold pattern_ip, octet, dot.
  intros (a & r1 & s1 & -> & _ & -> & H1 & Ha & _)%match_here_Rep.
  apply match_here_Chr in H1 as (r2 & s2 & -> & -> & H2).
  apply match_here_Rep in H2 as (b & r3 & s3 & -> & _ & -> & H3 & Hb & _).
  apply match_here_Chr in H3 as (r4 & s4 & -> & -> & H4).
  apply match_here_Rep in H4 as (c & r5 & s5 & -> & _ & -> & H5 & Hc & _).
  apply match_here_Chr in H5 as (r6 & s6 & -> & -> & H6).
  apply match_here_Rep in H6 as (d & r7 & s7 & -> & Hd & -> & H7 & _).
  intros m rest (a' & b' & c' & d' & [Ha' _] & [Hb' _] & [Hc' _] & Hd' & ->)
    Heq.
  rewrite !str_app_assoc, !str_app_cons, !str_app_nil_l in Heq.
  apply digits_dot_unique in Heq as [<- Heq]; [|done..].
  apply digits_dot_unique in Heq as [<- Heq]; [|done..].
  apply digits_dot_unique in Heq as [<- Heq]; [|done..].
  assert (String.length d' ≤ String.length d) as Hlen.
  { eapply (rep_here_longest _ _ _ _ _ _ _ Hd d' rest); [|done|by eexists].
    destruct Hd' as [? [??]]. repeat split; simpl; [done|lia|lia]. }
  rewrite !group0_cons. rewrite !str_length_app. simpl. lia.
Qed.

(** [re.search] finds nothing exactly when the pattern matches nowhere. *)
Lemma search_None (p : list atom) (s : string) :
  Re.search p s = None ↔ ∀ j m, occurs_at s j m → ¬ matches p m.
Proof.
  unfold Re.search. induction s as [|c s IH]; rewrite head_finditer;
    destruct (match_here p _) as [pcs|] eqn:Hm.
  - split; [done|]. intros Hno.
    apply match_here_sound in Hm as [Hok [rest Hrest]].
    destruct (Hno 0 (group0 pcs)); [apply occurs_at_0; eauto | by exists pcs].
  - split; [|done]. intros _ j m Hj. apply occurs_at_empty in Hj as [-> ->].
    eapply match_here_None; [done|]. by exists "", "".
  - split; [done|]. intros Hno.
    apply match_here_sound in Hm as [Hok [rest Hrest]].
    destruct (Hno 0 (group0 pcs)); [apply occurs_at_0; eauto | by exists pcs].
  - rewrite IH. split.
    + intros Hno [|j] m Hj; [by eapply match_here_None|].
      apply occurs_at_S in Hj. eauto.
    + intros Hno j m Hj. apply (Hno (S j)). by apply occurs_at_S.
Qed.

Lemma getitem_findall (p : list atom) (s : string) :
  getitem (findall p s) 0
  = match Re.search p s with
    | Some pieces => Ok (group0 pieces)
    | None => Raise IndexError
    end.
Proof.
  unfold getitem, findall, Re.search. rewrite <- head_lookup.
  by destruct (finditer p s).
Qed.

Lemma matches_pattern_ip (m : string) : matches pattern_ip m ↔ dotted_quad m.
Proof.
  unfold pattern_ip, dotted_quad, is_octet. split.
  - intros (pieces & Hok & ->).
    repeat match goal with
           | H : Forall2 _ _ _ |- _ => inversion H; clear H; simplify_eq/=
           end.
    repeat match goal with
           | H : _ ∧ _ |- _ => destruct H
           end.
    eexists _, _, _, _. repeat split; try done.
    all: by rewrite !group0_cons, str_app_nil_r.
  - intros (a & b & c & d & [] & [] & [] & [] & ->).
    exists [a; "."; b; "."; c; "."; d]. split.
    + repeat (apply List.Forall2_cons;
                [first [reflexivity | simpl; repeat split; first [done | lia]]|]).
      apply List.Forall2_nil.
    + by rewrite !group0_cons, str_app_nil_r.
Qed.

(** ** Splitting on the newline *)

Lemma prefix_nil (s : string) : String.prefix "" s = true.
Proof. by destruct s. Qed.

Lemma split_go_nonempty (sep : string) (s : string) :
  ∀ skip, split_go sep skip s ≠ [].
Proof.
  induction s as [|c s IH]; intros skip; cbn [split_go]; [done|].
  destruct skip; [|done].
  destruct (String.prefix sep (String c s)); [done|].
  specialize (IH 0). by destruct (split_go sep 0 s).
Qed.

Lemma length_cons_head (c : ascii) (l : list string) :
  l ≠ [] → length (cons_head c l) = length l.
Proof. by destruct l. Qed.

(** [split] on the newline yields one piece more than there are newlines. *)
Lemma length_split_nl (s : string) :
  length (split nl s) = S (count newline s).
Proof.
  unfold split, nl. induction s as [|c s IH]; [done|].
  cbn [split_go count String.prefix].
  destruct (ascii_dec newline c) as [<-|Hne].
  - rewrite prefix_nil, decide_True by done. simpl. by rewrite IH.
  - rewrite decide_False by done.
    rewrite length_cons_head by apply split_go_nonempty. done.
Qed.

Lemma contains_count (c : ascii) (s : string) :
  contains c s = bool_decide (0 < count c s).
Proof.
  induction s as [|a s IH]; [done|]. cbn [contains count].
  destruct (decide (a = c)); [|exact IH].
  symmetry. apply bool_decide_eq_true. lia.
Qed.

Lemma contains_app_r (c : ascii) (s t : string) :
  contains c t = true → contains c (s +:+ t) = true.
Proof.
  intros Ht. induction s as [|a s IH]; [done|].
  rewrite str_app_cons. cbn [contains]. by destruct (decide (a = c)).
Qed.

Lemma getitem_Ok {A} (l : list A) (i : nat) (x : A) :
  getitem l i = Ok x ↔ l !! i = Some x.
Proof. unfold getitem. destruct (l !! i); naive_solver. Qed.

Lemma getitem_Raise {A} (l : list A) (i : nat) (e : exn) :
  getitem l i = Raise e ↔ length l ≤ i ∧ e = IndexError.
Proof.
  unfold getitem. destruct (l !! i) eqn:Hl.
  - apply lookup_lt_Some in Hl. split; [done|]. lia.
  - apply lookup_ge_None in Hl. split; [by intros [= ->]|by intros [_ ->]].
Qed.

Lemma getitem_lt {A} (l : list A) (i : nat) :
  i < length l → ∃ x, getitem l i = Ok x ∧ l !! i = Some x.
Proof.
  intros [x Hx]%lookup_lt_is_Some. exists x. by rewrite getitem_Ok.
Qed.

(** ** The row extractor *)

Lemma guarded_getitem {A B} (f : A → B) (d : B) (l : list A) (i : nat) :
  (if bool_decide (i < length l) then f <$> getitem l i else Ok d)
  = Ok (from_option f d (l !! i)).
Proof.
  unfold getitem. destruct (l !! i) eqn:Hl.
  - apply lookup_lt_Some in Hl. by rewrite bool_decide_eq_true_2.
  - apply lookup_ge_None in Hl. rewrite bool_decide_eq_false_2; [done|lia].
Qed.

Section ExtractorFacts.
Context `{!Libs}.

(** [row_data] with its guarded reads resolved: what is left to fail is the
    host, the address, and the two indexings of the split third cell. *)
Lemma row_data_unfold (tds : list node) :
  row_data tds
  = (td0 ← getitem tds 0;
     host ← host_of td0;
     td1 ← getitem tds 1;
     ip ← getitem (findall pattern_ip (text td1)) 0;
     asn ←
       (if contains newline (as_text tds)
        then getitem (split nl (as_text tds)) 1 else Ok "");
     asn_range ←
       (if contains newline (as_text tds)
        then getitem (split nl (as_text tds)) 2 else Ok "");
     Ok (entry host ip (reverse_dns_of td1) asn asn_range
           (span_text (name_spans tds) 0) (span_text (name_spans tds) 1)
           (open_service_of tds))).
Proof.
  unfold row_data.
  destruct (getitem tds 0) as [td0|]; [|done]. simpl.
  destruct (host_of td0) as [host|]; [|done]. simpl.
  destruct (getitem tds 1) as [td1|]; [|done]. simpl.
  destruct (getitem _ 0) as [ip|]; [|done]. simpl.
  rewrite (guarded_getitem text "" tds 2). simpl. fold (as_text tds).
  destruct (if contains newline (as_text tds) then _ else _) as [asn|];
    [|done]. simpl.
  destruct (if contains newline (as_text tds) then _ else _) as [asn_range|];
    [|done]. simpl.
  rewrite (guarded_getitem (find_all_class "span" "sm-text") [] tds 3). simpl.
  fold (name_spans tds).
  rewrite (guarded_getitem (λ e, strip (text e)) "" (name_spans tds) 0). simpl.
  rewrite (guarded_getitem (λ e, strip (text e)) "" (name_spans tds) 1). simpl.
  rewrite (guarded_getitem (λ td, join nl (stripped_lines (text td))) "N/A"
             tds 4). simpl.
  unfold reverse_dns_of. by destruct (find "span" td1).
Qed.

(** What a row that is kept was read from. *)
Lemma row_data_Ok (tds : list node) (data : gmap string value) :
  row_data tds = Ok data →
  ∃ td0 td1 host ip asn asn_range,
    tds !! 0 = Some td0 ∧ host_of td0 = Ok host ∧ tds !! 1 = Some td1
    ∧ getitem (findall pattern_ip (text td1)) 0 = Ok ip
    ∧ (if contains newline (as_text tds)
       then split nl (as_text tds) !! 1 = Some asn
            ∧ split nl (as_text tds) !! 2 = Some asn_range
       else asn = "" ∧ asn_range = "")
    ∧ data = entry host ip (reverse_dns_of td1) asn asn_range
               (span_text (name_spans tds) 0) (span_text (name_spans tds) 1)
               (open_service_of tds).
Proof.
  rewrite row_data_unfold. intros Hd.
  destruct (getitem tds 0) as [td0|] eqn:H0; [|done]. simpl in Hd.
  destruct (host_of td0) as [host|] eqn:Hh; [|done]. simpl in Hd.
  destruct (getitem tds 1) as [td1|] eqn:H1; [|done]. simpl in Hd.
  destruct (getitem (findall pattern_ip (text td1)) 0) as [ip|] eqn:Hip;
    [|done]. simpl in Hd.
  apply getitem_Ok in H0, H1.
  exists td0, td1, host, ip.
  destruct (contains newline (as_text tds)).
  - destruct (getitem (split nl (as_text tds)) 1) as [asn|] eqn:Ha;
      [|done]. simpl in Hd.
    destruct (getitem (split nl (as_text tds)) 2) as [asn_range|] eqn:Hr;
      [|done]. simpl in Hd.
    apply getitem_Ok in Ha, Hr. exists asn, asn_range. naive_solver.
  - simpl in Hd. exists "", "". naive_solver.
Qed.

(** One turn of the loop never raises: it appends the row's entry or leaves
    the list as it was. *)
Lemma row_step_Ok (res : list value) (tr : node) :
  row_step res tr = Ok (res ++ option_list (row_entry tr)).
Proof.
  unfold row_step, row_entry.
  destruct (row_data (findAll "td" tr)) as [data|e]; simpl; [done|].
  by rewrite List.app_nil_r.
Qed.

(** The loop of [retrieve_results] keeps the entries of the rows whose
    extraction succeeds, in the order of the rows. *)
Lemma for_each_row_step (trs : list node) :
  ∀ res, for_each row_step res trs = Ok (res ++ omap row_entry trs).
Proof.
  induction trs as [|tr trs IH]; intros res; cbn [for_each omap list_omap].
  - by rewrite List.app_nil_r.
  - rewrite row_step_Ok. cbn [mbind result_bind]. rewrite IH.
    rewrite <- List.app_assoc. by destruct (row_entry tr).
Qed.

Lemma retrieve_results_Ok (table : node) :
  retrieve_results table = Ok (omap row_entry (findAll "tr" table)).
Proof. unfold retrieve_results. by rewrite for_each_row_step. Qed.

Lemma retrieve_txt_record_Ok (table : node) :
  retrieve_txt_record table
  = Ok ((λ td, VStr (strip (text td))) <$> findAll "td" table).
Proof.
  unfold retrieve_txt_record.
  assert (∀ tds res,
    for_each (λ res td, Ok (res ++ [VStr (strip (text td))])) res tds
    = Ok (res ++ ((λ td, VStr (strip (text td))) <$> tds))) as Hloop.
  { induction tds as [|td tds IH]; intros res; simpl.
    - by rewrite List.app_nil_r.
    - rewrite IH. by rewrite <- List.app_assoc. }
  apply Hloop.
Qed.

End ExtractorFacts.

Lemma dom_entry (host ip reverse_dns asn asn_range asn_name country
    open_service : string) :
  dom (entry host ip reverse_dns asn asn_range asn_name country open_service)
  = row_keys.
Proof.
  unfold entry, row_keys. rewrite !dom_insert_L, dom_empty_L. set_solver.
Qed.

Lemma join_single_line (l : list string) :
  join nl l = "N/A" ↔ l = ["N/A"].
Proof.
  split; [|by intros ->].
  destruct l as [|x [|y r]]; unfold join; cbn [String.concat]; intros Hj.
  - done.
  - by subst.
  - exfalso. assert (contains newline "N/A" = true) as Hc; [|done].
    rewrite <- Hj. apply contains_app_r. unfold nl. rewrite str_app_cons.
    cbn [contains]. by rewrite decide_True.
Qed.

Section RowClaims.
Context `{!Libs}.

(** A row without a dotted quad in the text of its second cell, or without
    a second cell, yields no entry. *)
Lemma row_without_address (tr : node) :
  (∀ td1, findAll "td" tr !! 1 = Some td1 →
          ∀ j m, occurs_at (text td1) j m → ¬ dotted_quad m) →
  ∃ e, row_data (findAll "td" tr) = Raise e.
Proof.
  intros Hno. rewrite row_data_unfold.
  destruct (getitem (findAll "td" tr) 0) as [td0|e0]; [|by eexists]. simpl.
  destruct (host_of td0) as [host|e1]; [|by eexists]. simpl.
  destruct (getitem (findAll "td" tr) 1) as [td1|e2] eqn:H1; [|by eexists].
  simpl. apply getitem_Ok in H1. rewrite getitem_findall.
  assert (Re.search pattern_ip (text td1) = None) as ->; [|by eexists].
  apply search_None. intros j m Hj Hm%matches_pattern_ip. by eapply Hno.
Qed.

(** C3: the table-level extractor never raises; it returns, in the order of
    the rows, the entries of the rows whose extraction succeeds.  A row
    whose second cell holds no dotted quad, and any row whose extraction
    raises, contributes nothing and leaves the entries gathered so far as
    they were; around such a row the entries of the rows before and after
    it are all there. *)
Theorem retrieve_results_isolates_rows (table : node) :
  retrieve_results table = Ok (omap row_entry (findAll "tr" table))
  ∧ (∀ tr,
       (∀ td1, findAll "td" tr !! 1 = Some td1 →
               ∀ j m, occurs_at (text td1) j m → ¬ dotted_quad m) →
       row_entry tr = None)
  ∧ (∀ tr e,
       row_data (findAll "td" tr) = Raise e →
       row_entry tr = None ∧ ∀ res, row_step res tr = Ok res)
  ∧ (∀ before tr after,
       findAll "tr" table = before ++ tr :: after →
       retrieve_results table
       = Ok (omap row_entry before ++ option_list (row_entry tr)
             ++ omap row_entry after)).
Proof.
  split; [apply retrieve_results_Ok|]. split; [|split].
  - intros tr Hno. destruct (row_without_address tr Hno) as [e He].
    unfold row_entry. by rewrite He.
  - intros tr e He. split; [unfold row_entry; by rewrite He|].
    intros res. rewrite row_step_Ok. unfold row_entry. rewrite He. simpl.
    by rewrite List.app_nil_r.
  - intros before tr after Hrows. rewrite retrieve_results_Ok, Hrows.
    rewrite omap_app. cbn [omap list_omap]. by destruct (row_entry tr).
Qed.

(** C9: every entry of the list [retrieve_results] returns is a record with
    exactly the eight keys host, ip, reverse_dns, as, asn_range, asn_name,
    asn_country and open_service; it comes from a row of the table, and its
    ip is a dotted quad that stands in the text of that row's second cell:
    no dotted quad starts further left there, and none that starts at the
    same place is longer. *)
Theorem retrieve_results_entries (table : node) :
  ∃ rows,
    retrieve_results table = Ok rows
    ∧ Forall
        (λ e, ∃ data tr td1 ip i,
           e = VDict data ∧ dom data = row_keys
           ∧ tr ∈ findAll "tr" table ∧ findAll "td" tr !! 1 = Some td1
           ∧ data !! "ip" = Some (VStr ip) ∧ dotted_quad ip
           ∧ occurs_at (text td1) i ip
           ∧ (∀ j m, occurs_at (text td1) j m → dotted_quad m → i ≤ j)
           ∧ (∀ m, occurs_at (text td1) i m → dotted_quad m →
                   String.length m ≤ String.length ip))
        rows.
Proof.
  eexists. split; [apply retrieve_results_Ok|].
  apply Forall_forall. intros e (tr & Htr & He)%list_elem_of_omap.
  unfold row_entry in He.
  destruct (row_data (findAll "td" tr)) as [data|] eqn:Hd; [|done].
  simplify_eq.
  apply row_data_Ok in Hd
    as (td0 & td1 & host & ip & asn & asn_range & _ & _ & H1 & Hip & _ & ->).
  rewrite getitem_findall in Hip.
  destruct (Re.search pattern_ip (text td1)) as [pieces|] eqn:Hs; [|done].
  simplify_eq.
  apply search_leftmost in Hs as (pre & post & Htext & Hhere & Hleft).
  destruct (match_here_sound _ _ _ Hhere) as (Hok & rest & Hpost).
  eexists _, tr, td1, (group0 pieces), (String.length pre).
  split; [reflexivity|]. split; [apply dom_entry|].
  split; [done|]. split; [done|].
  split; [by unfold entry; simplify_map_eq|].
  split; [apply matches_pattern_ip; by exists pieces|].
  split; [exists pre, rest; by rewrite Htext, Hpost|].
  split.
  - intros j m Hj Hm. apply (Hleft j m Hj). by apply matches_pattern_ip.
  - intros m (pre' & post' & Heq & Hlen) Hm. rewrite Htext in Heq.
    apply str_app_inv_length in Heq as [_ ->]; [|done].
    by eapply match_here_ip_longest.
Qed.

(** What does hold of the third cell: without a line break in its text, or
    without the cell, the row is kept with both fields empty; with two line
    breaks or more it is kept with the second and third pieces of the
    split. *)
Lemma third_cell_fields (tds : list node) (td0 td1 : node) (host ip : string) :
  tds !! 0 = Some td0 → host_of td0 = Ok host → tds !! 1 = Some td1 →
  getitem (findall pattern_ip (text td1)) 0 = Ok ip →
  (count newline (as_text tds) = 0 →
   ∃ data, row_data tds = Ok data
           ∧ data !! "as" = Some (VStr "")
           ∧ data !! "asn_range" = Some (VStr ""))
  ∧ (2 ≤ count newline (as_text tds) →
     ∃ data asn asn_range,
       row_data tds = Ok data
       ∧ split nl (as_text tds) !! 1 = Some asn
       ∧ split nl (as_text tds) !! 2 = Some asn_range
       ∧ data !! "as" = Some (VStr asn)
       ∧ data !! "asn_range" = Some (VStr asn_range)).
Proof.
  intros H0%getitem_Ok Hh H1%getitem_Ok Hip.
  rewrite row_data_unfold, H0. simpl. rewrite Hh. simpl. rewrite H1. simpl.
  rewrite Hip. simpl. rewrite contains_count. split; intros Hc.
  - rewrite bool_decide_eq_false_2 by lia. simpl. eexists. split; [done|].
    by unfold entry; simplify_map_eq.
  - rewrite bool_decide_eq_true_2 by lia.
    destruct (getitem_lt (split nl (as_text tds)) 1) as (asn & -> & Ha);
      [rewrite length_split_nl; lia|].
    destruct (getitem_lt (split nl (as_text tds)) 2) as (rng & -> & Hr);
      [rewrite length_split_nl; lia|].
    simpl. eexists _, asn, rng. repeat split; try done.
    all: by unfold entry; simplify_map_eq.
Qed.

(** C2: a row whose host and address are read but whose third cell's text
    holds exactly one line break raises [IndexError] at the third piece of
    the split, so the row yields no entry. *)
Theorem third_cell_single_line_break_drops_row
    (tds : list node) (td0 td1 td2 : node) (host ip : string) :
  tds !! 0 = Some td0 → host_of td0 = Ok host → tds !! 1 = Some td1 →
  getitem (findall pattern_ip (text td1)) 0 = Ok ip →
  tds !! 2 = Some td2 → count newline (text td2) = 1 →
  row_data tds = Raise IndexError
  ∧ ∀ tr res, findAll "td" tr = tds →
              row_entry tr = None ∧ row_step res tr = Ok res.
Proof.
  intros H0%getitem_Ok Hh H1%getitem_Ok Hip H2 Hc.
  assert (row_data tds = Raise IndexError) as Hrow.
  { rewrite row_data_unfold, H0. simpl. rewrite Hh. simpl. rewrite H1. simpl.
    rewrite Hip. simpl. unfold as_text. rewrite H2. simpl.
    rewrite contains_count, bool_decide_eq_true_2 by lia.
    destruct (getitem_lt (split nl (text td2)) 1) as (asn & -> & Ha);
      [rewrite length_split_nl; lia|]. simpl.
    assert (getitem (split nl (text td2)) 2 = Raise IndexError) as ->; [|done].
    apply getitem_Raise. rewrite length_split_nl. split; [lia|done]. }
  split; [done|]. intros tr res <-. unfold row_entry. rewrite row_step_Ok.
  unfold row_entry. rewrite Hrow. simpl. by rewrite List.app_nil_r.
Qed.

(** C4, as amended: the open_service of an entry is N/A whenever the row has
    at most four cells; with five cells or more it is the fifth cell's
    non-blank lines, stripped and joined by newlines, and that is N/A
    exactly when those lines are the one line N/A. *)
Theorem open_service_sentinel (tds : list node) (data : gmap string value) :
  row_data tds = Ok data →
  ∃ v, data !! "open_service" = Some (VStr v)
       ∧ (length tds ≤ 4 → v = "N/A")
       ∧ (∀ td, tds !! 4 = Some td →
                v = join nl (stripped_lines (text td))
                ∧ (v = "N/A" ↔ stripped_lines (text td) = ["N/A"])).
Proof.
  intros (td0 & td1 & host & ip & asn & asn_range & _ & _ & _ & _ & _ & ->)
    %row_data_Ok.
  exists (open_service_of tds). split; [by unfold entry; simplify_map_eq|].
  unfold open_service_of. split.
  - intros Hlen. by rewrite (lookup_ge_None_2 tds 4) by lia.
  - intros td ->. simpl. split; [done|]. apply join_single_line.
Qed.

End RowClaims.

(** ** The client *)

Lemma io_bind_Ok {A B} (m : IO A) (k : A → IO B) (t t' : list event) (a : A) :
  m t = (Ok a, t') → (m ≫= k) t = k a t'.
Proof. intros Hm. unfold mbind, IO_bind. by rewrite Hm. Qed.

Lemma io_bind_Raise {A B} (m : IO A) (k : A → IO B) (t t' : list event)
    (e : exn) :
  m t = (Raise e, t') → (m ≫= k) t = (Raise e, t').
Proof. intros Hm. unfold mbind, IO_bind. by rewrite Hm. Qed.

Lemma when_trace (b : bool) (msg : string) (t : list event) :
  when b (print msg) t = (Ok (), t ++ (if b then [EvPrint msg] else [])).
Proof. destruct b; simpl; [done|]. by rewrite List.app_nil_r. Qed.

Lemma set_record_insert (k : string) (v : value) (d m : gmap string value) :
  set_record k v (<["dns_records" := VDict d]> m)
  = Ok (<["dns_records" := VDict (<[k := v]> d)]> m).
Proof.
  unfold set_record. rewrite lookup_insert_eq. by rewrite insert_insert_eq.
Qed.

Lemma parser_calls_app (t u : list event) :
  parser_calls (t ++ u) = parser_calls t ++ parser_calls u.
Proof. apply List.filter_app. Qed.

Lemma network_calls_app (t u : list event) :
  network_calls (t ++ u) = network_calls t ++ network_calls u.
Proof. apply List.filter_app. Qed.

Lemma dom_records (a mx ns txt : list value) :
  dom (records a mx ns txt) = record_keys.
Proof.
  unfold records, record_keys. rewrite !dom_insert_L, dom_empty_L. set_solver.
Qed.

Lemma dom_query_result (domain : string) (recs : gmap string value)
    (image_data xls_data : value) :
  dom (query_result domain recs image_data xls_data) = result_keys.
Proof.
  unfold query_result, result_keys. rewrite !dom_insert_L, dom_empty_L.
  set_solver.
Qed.

Section ClientFacts.
Context `{!Libs}.

(** *** The two asset fetches *)

Lemma fetch_asset_no_match (self : client) (pattern : list atom)
    (html found failed : string) (t : list event) :
  Re.search pattern html = None →
  fetch_asset self pattern html found failed t
  = (Ok VNone,
     t ++ (if verbose self
           then [EvPrint (failed +:+ exn_str IndexError)] else [])).
Proof.
  intros Hs. unfold fetch_asset, try_io.
  rewrite (io_bind_Raise _ _ t t IndexError)
    by (unfold lift; by rewrite getitem_findall, Hs).
  erewrite io_bind_Ok by apply when_trace. done.
Qed.

Lemma fetch_asset_raises (self : client) (pattern : list atom)
    (html found failed : string) (t : list event) (pieces : list string)
    (e : exn) :
  Re.search pattern html = Some pieces →
  net (found_trace self found (group0 pieces) t) (GET (group0 pieces))
  = Raise e →
  fetch_asset self pattern html found failed t
  = (Ok VNone,
     (found_trace self found (group0 pieces) t
      ++ [EvRequest (GET (group0 pieces))])
     ++ (if verbose self then [EvPrint (failed +:+ exn_str e)] else [])).
Proof.
  intros Hs Hnet. unfold fetch_asset, try_io, found_trace in *.
  erewrite io_bind_Ok by (unfold lift; by rewrite getitem_findall, Hs).
  erewrite io_bind_Ok by apply when_trace.
  erewrite io_bind_Raise
    by (unfold requests; by rewrite Hnet).
  erewrite io_bind_Ok by apply when_trace. done.
Qed.

Lemma fetch_asset_response (self : client) (pattern : list atom)
    (html found failed : string) (t : list event) (pieces : list string)
    (r : response) :
  Re.search pattern html = Some pieces →
  net (found_trace self found (group0 pieces) t) (GET (group0 pieces))
  = Ok r →
  fetch_asset self pattern html found failed t
  = (Ok (VStr (b64encode (content r))),
     found_trace self found (group0 pieces) t
     ++ [EvRequest (GET (group0 pieces))]).
Proof.
  intros Hs Hnet. unfold fetch_asset, try_io, found_trace in *.
  erewrite io_bind_Ok by (unfold lift; by rewrite getitem_findall, Hs).
  erewrite io_bind_Ok by apply when_trace.
  erewrite io_bind_Ok
    by (unfold requests; by rewrite Hnet).
  done.
Qed.

(** A fetch never raises. *)
Lemma fetch_asset_total (self : client) (pattern : list atom)
    (html found failed : string) (t : list event) :
  ∃ v t', fetch_asset self pattern html found failed t = (Ok v, t').
Proof.
  destruct (Re.search pattern html) as [pieces|] eqn:Hs.
  - destruct (net (found_trace self found (group0 pieces) t)
                (GET (group0 pieces))) as [r|e] eqn:Hnet.
    + erewrite fetch_asset_response by done. by eexists _, _.
    + erewrite fetch_asset_raises by done. by eexists _, _.
  - rewrite fetch_asset_no_match by done. by eexists _, _.
Qed.

End ClientFacts.

Section ParserFacts.
Context `{!Libs}.

(** *** [parse_dnsdumpster] by the number of tables *)

Lemma record_step (tables : list node) (i : nat) (k : string)
    (f : node → result (list value)) (rows : list value)
    (d m : gmap string value) (t : list event) (table : node) :
  tables !! i = Some table → f table = Ok rows →
  lift (table ← getitem tables i;
        rows ← f table;
        set_record k (VList rows) (<["dns_records" := VDict d]> m)) t
  = (Ok (<["dns_records" := VDict (<[k := VList rows]> d)]> m), t).
Proof.
  intros Hi%getitem_Ok Hf. unfold lift. rewrite Hi. simpl. rewrite Hf. simpl.
  by rewrite set_record_insert.
Qed.

Lemma parse_few_tables (self : client) (html domain : string)
    (t : list event) :
  length (findAll "table" (html_parser html)) < 4 →
  parse_dnsdumpster self html domain t
  = (Ok VNone,
     (t ++ [EvSoup html])
     ++ (if verbose self
         then [EvPrint "Not enough tables found to process."] else [])).
Proof.
  intros Hlen. unfold parse_dnsdumpster.
  erewrite io_bind_Ok by reflexivity. cbv beta zeta.
  rewrite bool_decide_eq_false_2 by lia.
  erewrite io_bind_Ok by apply when_trace. done.
Qed.

Lemma parse_four_tables (self : client) (html domain : string)
    (t : list event) :
  length (findAll "table" (html_parser html)) = 4 →
  parse_dnsdumpster self html domain t = (Raise IndexError, t ++ [EvSoup html]).
Proof.
  intros Hlen. unfold parse_dnsdumpster.
  erewrite io_bind_Ok by reflexivity. cbv beta zeta.
  rewrite bool_decide_eq_true_2 by lia.
  destruct (getitem_lt (findAll "table" (html_parser html)) 1)
    as (t1 & _ & H1); [lia|].
  destruct (getitem_lt (findAll "table" (html_parser html)) 2)
    as (t2 & _ & H2); [lia|].
  destruct (getitem_lt (findAll "table" (html_parser html)) 3)
    as (t3 & _ & H3); [lia|].
  erewrite io_bind_Ok
    by (eapply record_step; [done | apply retrieve_results_Ok]).
  erewrite io_bind_Ok
    by (eapply record_step; [done | apply retrieve_results_Ok]).
  erewrite io_bind_Ok
    by (eapply record_step; [done | apply retrieve_results_Ok]).
  apply io_bind_Raise. unfold lift.
  assert (getitem (findAll "table" (html_parser html)) 4 = Raise IndexError)
    as ->; [|done].
  apply getitem_Raise. split; [lia|done].
Qed.

Lemma parse_five_tables (self : client) (html domain : string)
    (t : list event) :
  5 ≤ length (findAll "table" (html_parser html)) →
  ∃ t1 t2 t3 t4 image xls tr1 tr2,
    findAll "table" (html_parser html) !! 1 = Some t1
    ∧ findAll "table" (html_parser html) !! 2 = Some t2
    ∧ findAll "table" (html_parser html) !! 3 = Some t3
    ∧ findAll "table" (html_parser html) !! 4 = Some t4
    ∧ fetch_map self html domain (t ++ [EvSoup html]) = (Ok image, tr1)
    ∧ fetch_xls self html domain tr1 = (Ok xls, tr2)
    ∧ parse_dnsdumpster self html domain t
      = (Ok (VDict (query_result domain
                      (records (entries_of t1) (entries_of t2)
                         (entries_of t3) (txt_of t4))
                      image xls)),
         tr2).
Proof.
  intros Hlen.
  destruct (getitem_lt (findAll "table" (html_parser html)) 1)
    as (t1 & _ & H1); [lia|].
  destruct (getitem_lt (findAll "table" (html_parser html)) 2)
    as (t2 & _ & H2); [lia|].
  destruct (getitem_lt (findAll "table" (html_parser html)) 3)
    as (t3 & _ & H3); [lia|].
  destruct (getitem_lt (findAll "table" (html_parser html)) 4)
    as (t4 & _ & H4); [lia|].
  destruct (fetch_asset_total self (pattern_map domain) html
              "Network mapping image URL: " "Error obtaining mapping image: "
              (t ++ [EvSoup html])) as (image & tr1 & Himage).
  destruct (fetch_asset_total self (pattern_xls domain) html
              "XLS URL: " "Error obtaining XLS file: " tr1)
    as (xls & tr2 & Hxls).
  exists t1, t2, t3, t4, image, xls, tr1, tr2.
  do 6 (split; [done|]).
  unfold parse_dnsdumpster.
  erewrite io_bind_Ok by reflexivity. cbv beta zeta.
  rewrite bool_decide_eq_true_2 by lia.
  erewrite io_bind_Ok
    by (eapply record_step; [done | apply retrieve_results_Ok]).
  erewrite io_bind_Ok
    by (eapply record_step; [done | apply retrieve_results_Ok]).
  erewrite io_bind_Ok
    by (eapply record_step; [done | apply retrieve_results_Ok]).
  erewrite io_bind_Ok
    by (eapply record_step; [done | apply retrieve_txt_record_Ok]).
  erewrite io_bind_Ok by exact Himage.
  erewrite io_bind_Ok by exact Hxls.
  done.
Qed.

End ParserFacts.

Section SearchFacts.
Context `{!Libs}.

(** *** [get_dnsdumpster] and [search] *)

Lemma get_dnsdumpster_no_token (self : client) (target : string)
    (t : list event) :
  truthy_opt (authorization self) = false →
  get_dnsdumpster self target t
  = (Ok None, t ++ [EvPrint "Authorization token is missing."]).
Proof. intros Htok. unfold get_dnsdumpster. by rewrite Htok. Qed.

Lemma get_dnsdumpster_token (self : client) (target : string)
    (t : list event) :
  truthy_opt (authorization self) = true →
  get_dnsdumpster self target t
  = match net t (query self target) with
    | Ok r =>
        if bool_decide (status_code r ≠ 200%Z)
        then (Ok None,
              (t ++ [EvRequest (query self target)])
              ++ (if verbose self
                  then [EvPrint ("Error: Request failed with status code "
                                 +:+ pretty (status_code r))]
                  else []))
        else (Ok (Some (resp_text r)), t ++ [EvRequest (query self target)])
    | Raise e => (Raise e, t ++ [EvRequest (query self target)])
    end.
Proof.
  intros Htok. unfold get_dnsdumpster. rewrite Htok. cbv zeta. cbn [negb].
  fold (query self target).
  destruct (net t (query self target)) as [r|e] eqn:Hnet.
  - erewrite io_bind_Ok by (unfold requests; by rewrite Hnet). cbv beta.
    destruct (bool_decide (status_code r ≠ 200%Z)); [|done].
    erewrite io_bind_Ok by apply when_trace. done.
  - erewrite io_bind_Raise by (unfold requests; by rewrite Hnet). done.
Qed.

(** [get_dnsdumpster] never calls the parser. *)
Lemma get_dnsdumpster_parser_calls (self : client) (target : string)
    (t t' : list event) (r : result (option string)) :
  get_dnsdumpster self target t = (r, t') → parser_calls t' = parser_calls t.
Proof.
  destruct (truthy_opt (authorization self)) eqn:Htok.
  - rewrite get_dnsdumpster_token by done.
    destruct (net t (query self target)) as [rs|e].
    + destruct (bool_decide (status_code rs ≠ 200%Z)); intros [= <- <-];
        rewrite !parser_calls_app; simpl;
        destruct (verbose self); simpl; by rewrite ?List.app_nil_r.
    + intros [= <- <-]. rewrite parser_calls_app. simpl.
      by rewrite List.app_nil_r.
  - rewrite get_dnsdumpster_no_token by done. intros [= <- <-].
    rewrite parser_calls_app. simpl. by rewrite List.app_nil_r.
Qed.

Lemma search_unfold (self : client) (domain : string) (t : list event) :
  search self domain t
  = match get_dnsdumpster self domain (announced self domain t) with
    | (Ok html, t') =>
        if truthy_opt html
        then parse_dnsdumpster self (default "" html) domain t'
        else (Ok VNone, t')
    | (Raise e, t') => (Raise e, t')
    end.
Proof.
  unfold search. erewrite io_bind_Ok by apply when_trace.
  fold (announced self domain t). unfold mbind at 1, IO_bind.
  destruct (get_dnsdumpster self domain (announced self domain t))
    as [[html|e] t']; [|done].
  by destruct (truthy_opt html).
Qed.

Lemma parser_calls_announced (self : client) (domain : string)
    (t : list event) :
  parser_calls (announced self domain t) = parser_calls t.
Proof.
  unfold announced. rewrite parser_calls_app.
  destruct (verbose self); simpl; by rewrite List.app_nil_r.
Qed.

Lemma network_calls_announced (self : client) (domain : string)
    (t : list event) :
  network_calls (announced self domain t) = network_calls t.
Proof.
  unfold announced. rewrite network_calls_app.
  destruct (verbose self); simpl; by rewrite List.app_nil_r.
Qed.

(** C5: with no token, [get_dnsdumpster] returns [None] having printed one
    line and made no network call; and [search] returns [None] with no call
    to the parser whenever the token is missing (then with no network call
    either) or [get_dnsdumpster] returns [None]. *)
Theorem search_short_circuits (self : client) (domain : string)
    (t : list event) :
  (authorization self = None →
   get_dnsdumpster self domain t
   = (Ok None, t ++ [EvPrint "Authorization token is missing."])
   ∧ network_calls (t ++ [EvPrint "Authorization token is missing."])
     = network_calls t)
  ∧ (authorization self = None →
     ∃ t', search self domain t = (Ok VNone, t')
           ∧ parser_calls t' = parser_calls t
           ∧ network_calls t' = network_calls t)
  ∧ (∀ t', get_dnsdumpster self domain (announced self domain t)
           = (Ok None, t') →
           search self domain t = (Ok VNone, t')
           ∧ parser_calls t' = parser_calls t).
Proof.
  split; [|split].
  - intros Hnone. rewrite get_dnsdumpster_no_token by by rewrite Hnone.
    split; [done|]. rewrite network_calls_app. simpl.
    by rewrite List.app_nil_r.
  - intros Hnone. eexists. rewrite search_unfold.
    rewrite get_dnsdumpster_no_token by by rewrite Hnone.
    split; [done|].
    rewrite parser_calls_app, network_calls_app, parser_calls_announced,
      network_calls_announced. simpl. by rewrite !List.app_nil_r.
  - intros t' Hget. rewrite search_unfold, Hget. split; [done|].
    apply get_dnsdumpster_parser_calls in Hget.
    by rewrite Hget, parser_calls_announced.
Qed.

End SearchFacts.

(** C10: when the POST is answered with status 200 and an empty body,
    [get_dnsdumpster] returns the empty string and [search] returns [None]
    without a call to the parser: the very value it returns, under another
    network, when the POST is answered with a status other than 200. *)
Theorem search_empty_body (L1 L2 : Libs) (self : client) (domain : string)
    (t : list event) (r1 r2 : response) :
  truthy_opt (authorization self) = true →
  @net L1 (announced self domain t) (query self domain) = Ok r1 →
  status_code r1 = 200%Z → resp_text r1 = "" →
  @net L2 (announced self domain t) (query self domain) = Ok r2 →
  status_code r2 ≠ 200%Z →
  @get_dnsdumpster L1 self domain (announced self domain t)
  = (Ok (Some ""), announced self domain t ++ [EvRequest (query self domain)])
  ∧ @search L1 self domain t
    = (Ok VNone, announced self domain t ++ [EvRequest (query self domain)])
  ∧ parser_calls (announced self domain t ++ [EvRequest (query self domain)])
    = parser_calls t
  ∧ (@search L1 self domain t).1 = (@search L2 self domain t).1.
Proof.
  intros Htok Hn1 Hs1 Hb1 Hn2 Hs2.
  assert (@get_dnsdumpster L1 self domain (announced self domain t)
          = (Ok (Some ""),
             announced self domain t ++ [EvRequest (query self domain)]))
    as Hget.
  { rewrite get_dnsdumpster_token by done. rewrite Hn1, Hs1, Hb1.
    by rewrite bool_decide_eq_false_2 by (intros Hne; by apply Hne). }
  split; [done|].
  assert (@search L1 self domain t
          = (Ok VNone,
             announced self domain t ++ [EvRequest (query self domain)]))
    as Hsearch.
  { by rewrite search_unfold, Hget. }
  split; [done|]. split.
  - rewrite parser_calls_app, parser_calls_announced. simpl.
    by rewrite List.app_nil_r.
  - rewrite Hsearch, (@search_unfold L2).
    rewrite (@get_dnsdumpster_token L2) by done. rewrite Hn2.
    by rewrite bool_decide_eq_true_2 by done.
Qed.

Section ParserClaims.
Context `{!Libs}.

(** What does hold of the table count: below four tables the parse returns
    [None], and from five tables on it returns a record whose dns_records
    has the four keys. *)
Lemma parse_table_threshold (self : client) (html domain : string)
    (t : list event) :
  (length (findAll "table" (html_parser html)) < 4 →
   (parse_dnsdumpster self html domain t).1 = Ok VNone)
  ∧ (5 ≤ length (findAll "table" (html_parser html)) →
     ∃ res recs t',
       parse_dnsdumpster self html domain t = (Ok (VDict res), t')
       ∧ res !! "dns_records" = Some (VDict recs)
       ∧ dom recs = record_keys).
Proof.
  split; intros Hlen.
  - by rewrite parse_few_tables.
  - destruct (parse_five_tables self html domain t Hlen)
      as (t1 & t2 & t3 & t4 & image & xls & tr1 & tr2 & _ & _ & _ & _ & _ & _
          & ->).
    eexists _, _, _. split; [done|].
    split; [by unfold query_result; simplify_map_eq|]. apply dom_records.
Qed.

(** C1: on a document with exactly four tables, [parse_dnsdumpster] passes
    the test on the table count, reads the fifth table and raises
    [IndexError]; it returns neither [None] nor a record. *)
Theorem parse_four_tables_raises (self : client) (html domain : string)
    (t : list event) :
  length (findAll "table" (html_parser html)) = 4 →
  parse_dnsdumpster self html domain t = (Raise IndexError, t ++ [EvSoup html])
  ∧ ∀ v, (parse_dnsdumpster self html domain t).1 ≠ Ok v.
Proof.
  intros Hlen. rewrite parse_four_tables by done. by split.
Qed.

(** C8: a parse that returns a record returns one whose keys are domain,
    dns_records, image_data and xls_data, whose domain is the argument it
    was called with, and whose dns_records has the keys a, mx, ns and
    txt. *)
Theorem parse_result_shape (self : client) (html domain : string)
    (t t' : list event) (v : value) :
  parse_dnsdumpster self html domain t = (Ok v, t') → v ≠ VNone →
  ∃ res recs,
    v = VDict res
    ∧ res !! "domain" = Some (VStr domain)
    ∧ dom res = result_keys
    ∧ res !! "dns_records" = Some (VDict recs)
    ∧ dom recs = record_keys.
Proof.
  intros Hparse Hv.
  destruct (decide (length (findAll "table" (html_parser html)) < 4))
    as [Hlt|Hge].
  { rewrite parse_few_tables in Hparse by done. by simplify_eq. }
  destruct (decide (length (findAll "table" (html_parser html)) = 4))
    as [H4|Hne].
  { rewrite parse_four_tables in Hparse by done. by simplify_eq. }
  destruct (parse_five_tables self html domain t)
    as (t1 & t2 & t3 & t4 & image & xls & tr1 & tr2 & _ & _ & _ & _ & _ & _
        & Heq); [lia|].
  rewrite Heq in Hparse. simplify_eq.
  eexists _, _. split; [done|].
  split; [by unfold query_result; simplify_map_eq|].
  split; [apply dom_query_result|].
  split; [by unfold query_result; simplify_map_eq|]. apply dom_records.
Qed.

(** C7: on a document with five tables or more, the parse returns a record
    whose txt list is, cell by cell and in document order, the stripped
    text of the cells of the fifth table; and [retrieve_txt_record] returns
    that list for every table, it never raises. *)
Theorem txt_records_one_per_cell (self : client) (html domain : string)
    (t : list event) :
  5 ≤ length (findAll "table" (html_parser html)) →
  (∃ res recs table4 t',
     parse_dnsdumpster self html domain t = (Ok (VDict res), t')
     ∧ findAll "table" (html_parser html) !! 4 = Some table4
     ∧ res !! "dns_records" = Some (VDict recs)
     ∧ recs !! "txt"
       = Some (VList ((λ td, VStr (strip (text td)))
                      <$> findAll "td" table4)))
  ∧ ∀ table,
      retrieve_txt_record table
      = Ok ((λ td, VStr (strip (text td))) <$> findAll "td" table).
Proof.
  intros Hlen. split; [|apply retrieve_txt_record_Ok].
  destruct (parse_five_tables self html domain t Hlen)
    as (t1 & t2 & t3 & t4 & image & xls & tr1 & tr2 & _ & _ & _ & H4 & _ & _
        & ->).
  eexists _, _, t4, _. split; [done|]. split; [done|].
  split; [by unfold query_result; simplify_map_eq|].
  by unfold records; simplify_map_eq.
Qed.

(** What does hold of the assets: from five tables on the parse returns a
    record, whatever becomes of the two fetches; image_data and xls_data
    are what the two fetches return, each [None] when its pattern matches
    nowhere in the page or its GET raises; and dns_records is read from the
    tables alone. *)
Lemma asset_failures_absorbed (self : client) (html domain : string)
    (t : list event) :
  5 ≤ length (findAll "table" (html_parser html)) →
  ∃ t1 t2 t3 t4 res image xls tr1 tr2,
    parse_dnsdumpster self html domain t = (Ok (VDict res), tr2)
    ∧ fetch_map self html domain (t ++ [EvSoup html]) = (Ok image, tr1)
    ∧ fetch_xls self html domain tr1 = (Ok xls, tr2)
    ∧ res !! "image_data" = Some image
    ∧ res !! "xls_data" = Some xls
    ∧ findAll "table" (html_parser html) !! 1 = Some t1
    ∧ findAll "table" (html_parser html) !! 2 = Some t2
    ∧ findAll "table" (html_parser html) !! 3 = Some t3
    ∧ findAll "table" (html_parser html) !! 4 = Some t4
    ∧ res !! "dns_records"
      = Some (VDict (records (entries_of t1) (entries_of t2) (entries_of t3)
                       (txt_of t4)))
    ∧ (Re.search (pattern_map domain) html = None → image = VNone)
    ∧ (∀ pieces e,
         Re.search (pattern_map domain) html = Some pieces →
         net (found_trace self "Network mapping image URL: " (group0 pieces)
                (t ++ [EvSoup html])) (GET (group0 pieces)) = Raise e →
         image = VNone)
    ∧ (Re.search (pattern_xls domain) html = None → xls = VNone)
    ∧ (∀ pieces e,
         Re.search (pattern_xls domain) html = Some pieces →
         net (found_trace self "XLS URL: " (group0 pieces) tr1)
           (GET (group0 pieces)) = Raise e →
         xls = VNone).
Proof.
  intros Hlen.
  destruct (parse_five_tables self html domain t Hlen)
    as (t1 & t2 & t3 & t4 & image & xls & tr1 & tr2 & H1 & H2 & H3 & H4
        & Himage & Hxls & ->).
  exists t1, t2, t3, t4. eexists _, image, xls, tr1, tr2.
  split; [done|]. do 2 (split; [done|]).
  do 2 (split; [by unfold query_result; simplify_map_eq|]).
  do 4 (split; [done|]).
  split; [by unfold query_result; simplify_map_eq|].
  unfold fetch_map, fetch_xls in *. repeat split.
  - intros Hs. rewrite fetch_asset_no_match in Himage by done. by simplify_eq.
  - intros pieces e Hs Hnet.
    erewrite fetch_asset_raises in Himage by done. by simplify_eq.
  - intros Hs. rewrite fetch_asset_no_match in Hxls by done. by simplify_eq.
  - intros pieces e Hs Hnet.
    erewrite fetch_asset_raises in Hxls by done. by simplify_eq.
Qed.

(** C6: when the map's URL stands in the page and its GET is answered with
    a status other than 200, the parse returns a record whose image_data is
    the encoding of the body of that answer, not [None]: the status of the
    answer is never looked at. *)
Theorem asset_error_status_is_encoded (self : client) (html domain : string)
    (t : list event) (pieces : list string) (r : response) :
  5 ≤ length (findAll "table" (html_parser html)) →
  Re.search (pattern_map domain) html = Some pieces →
  net (found_trace self "Network mapping image URL: " (group0 pieces)
         (t ++ [EvSoup html])) (GET (group0 pieces)) = Ok r →
  status_code r ≠ 200%Z →
  ∃ res t',
    parse_dnsdumpster self html domain t = (Ok (VDict res), t')
    ∧ res !! "image_data" = Some (VStr (b64encode (content r)))
    ∧ res !! "image_data" ≠ Some VNone.
Proof.
  intros Hlen Hs Hnet _.
  destruct (parse_five_tables self html domain t Hlen)
    as (t1 & t2 & t3 & t4 & image & xls & tr1 & tr2 & _ & _ & _ & _
        & Himage & _ & ->).
  unfold fetch_map in Himage.
  erewrite fetch_asset_response in Himage by done. simplify_eq.
  eexists _, _. split; [done|]. by unfold query_result; simplify_map_eq.
Qed.

End ParserClaims.

(** ** The properties at work on the fixtures *)

Import Fixture.

Example b64encode_padding :
  b64encode "Man" = "TWFu" ∧ b64encode "Ma" = "TWE=" ∧ b64encode "M" = "TQ==".
Proof. by vm_compute. Qed.

Example findall_ip_backtracks :
  findall pattern_ip "abc 1234.5.6.7890 x 1.2.3.4" = ["234.5.6.789"; "1.2.3.4"].
Proof. by vm_compute. Qed.

Example split_then_index :
  split br "<td>h<br/>x<br/></td>" = ["<td>h"; "x"; "</td>"]
  ∧ @host_of demo (el "td" [Text "ns1.example.com"; el "br" []; Text "note"])
    = Ok "ns1.example.com".
Proof. by vm_compute. Qed.

Example splitlines_boundaries :
  splitlines ("a" +:+ String carriage_return nl +:+ nl +:+ "b" +:+ nl)
  = ["a"; ""; "b"].
Proof. by vm_compute. Qed.

(** A row of two cells whose second cell reads an address followed by
    other text: the text after the address is not read into as or
    asn_range. *)
Example short_row_entry :
  @row_data demo (findAll "td" short_row)
  = Ok (entry "ns1.example.com" "192.0.2.1" "" "" "" "" "" "N/A").
Proof. by vm_compute. Qed.

Example full_row_entry :
  full_row_data
  = entry "www.example.com" "192.0.2.1" "host.example.com" "AS64496"
      "192.0.2.0/24" "EXAMPLE-NET" "US"
      ("http: nginx" +:+ nl +:+ "ssh: OpenSSH").
Proof. by vm_compute. Qed.

Example table_keeps_good_rows :
  @retrieve_results demo (table [full_row; bad_row; one_break_row; short_row])
  = Ok [VDict full_row_data;
        VDict (entry "ns1.example.com" "192.0.2.1" "" "" "" "" "" "N/A")].
Proof. by vm_compute. Qed.

Example token_is_read :
  @init
    (libs []
       [(GET "https://dnsdumpster.com/",
         answer 200
           ("<script>h = {" +:+ String dquote "Authorization"
            +:+ String dquote ": " +:+ String dquote "abc.def"
            +:+ String dquote "};</script>"))])
    false []
  = (Ok {| verbose := false; authorization := Some "abc.def" |},
     [EvRequest (GET "https://dnsdumpster.com/")]).
Proof. by vm_compute. Qed.

(** The page of four tables. *)
Lemma parse_four_tables_raises_witness :
  length (findAll "table" (@html_parser demo (html_of four_tables))) = 4
  ∧ @parse_dnsdumpster demo quiet (html_of four_tables) "example.com" []
    = (Raise IndexError, [] ++ [EvSoup (html_of four_tables)])
  ∧ ∀ v,
      (@parse_dnsdumpster demo quiet (html_of four_tables) "example.com" []).1
      ≠ Ok v.
Proof.
  assert (length (findAll "table" (@html_parser demo (html_of four_tables)))
          = 4) as Hlen by (vm_compute; reflexivity).
  split; [exact Hlen|].
  exact (@parse_four_tables_raises demo quiet (html_of four_tables)
           "example.com" [] Hlen).
Defined.

(** The row whose third cell holds one line break. *)
Lemma third_cell_single_line_break_drops_row_witness :
  count newline (text (cell ("AS64496" +:+ nl +:+ "192.0.2.0/24"))) = 1
  ∧ @row_data demo (findAll "td" one_break_row) = Raise IndexError
  ∧ ∀ tr res,
      findAll "td" tr = findAll "td" one_break_row →
      @row_entry demo tr = None ∧ @row_step demo res tr = Ok res.
Proof.
  split; [vm_compute; reflexivity|].
  apply (@third_cell_single_line_break_drops_row demo
           (findAll "td" one_break_row)
           (el "td" [Text "mx.example.com"; el "br" []; Text "note"])
           (el "td" [Text "192.0.2.25"; el "span" [Text ""]])
           (cell ("AS64496" +:+ nl +:+ "192.0.2.0/24"))
           "mx.example.com" "192.0.2.25");
    vm_compute; reflexivity.
Defined.

(** C4, refuted as stated: a row of five cells whose fifth cell reads N/A
    has the open_service N/A. *)
Lemma open_service_sentinel_collision :
  length (findAll "td" sentinel_row) = 5
  ∧ ∃ data,
      @row_data demo (findAll "td" sentinel_row) = Ok data
      ∧ data !! "open_service" = Some (VStr "N/A").
Proof.
  split; [vm_compute; reflexivity|].
  eexists. split; [vm_compute; reflexivity|]. vm_compute. reflexivity.
Qed.

(** The row with five cells. *)
Lemma open_service_sentinel_witness :
  @row_data demo (findAll "td" full_row) = Ok full_row_data
  ∧ ∃ v,
      full_row_data !! "open_service" = Some (VStr v)
      ∧ (length (findAll "td" full_row) ≤ 4 → v = "N/A")
      ∧ (∀ td, findAll "td" full_row !! 4 = Some td →
               v = join nl (stripped_lines (text td))
               ∧ (v = "N/A" ↔ stripped_lines (text td) = ["N/A"])).
Proof.
  assert (@row_data demo (findAll "td" full_row) = Ok full_row_data) as Hrow
    by (vm_compute; reflexivity).
  split; [exact Hrow|].
  exact (@open_service_sentinel demo (findAll "td" full_row) full_row_data
           Hrow).
Defined.

(** The page of five tables, the map answered with status 404. *)
Lemma asset_error_status_is_encoded_witness :
  status_code not_found ≠ 200%Z
  ∧ ∃ res t',
      @parse_dnsdumpster demo quiet (html_of five_tables) "example.com" []
      = (Ok (VDict res), t')
      ∧ res !! "image_data" = Some (VStr (b64encode (content not_found)))
      ∧ res !! "image_data" ≠ Some VNone.
Proof.
  assert (status_code not_found ≠ 200%Z) as Hstatus by (vm_compute; discriminate).
  split; [exact Hstatus|].
  apply (@asset_error_status_is_encoded demo quiet (html_of five_tables)
           "example.com" [] map_pieces not_found);
    [vm_compute; lia | vm_compute; reflexivity | vm_compute; reflexivity
    | exact Hstatus].
Defined.

Lemma txt_records_one_per_cell_witness :
  5 ≤ length (findAll "table" (@html_parser demo (html_of five_tables)))
  ∧ (∃ res recs table4 t',
       @parse_dnsdumpster demo quiet (html_of five_tables) "example.com" []
       = (Ok (VDict res), t')
       ∧ findAll "table" (@html_parser demo (html_of five_tables)) !! 4
         = Some table4
       ∧ res !! "dns_records" = Some (VDict recs)
       ∧ recs !! "txt"
         = Some (VList ((λ td, VStr (strip (text td)))
                        <$> findAll "td" table4)))
  ∧ ∀ table,
      @retrieve_txt_record table
      = Ok ((λ td, VStr (strip (text td))) <$> findAll "td" table).
Proof.
  assert (5 ≤ length (findAll "table"
                        (@html_parser demo (html_of five_tables)))) as Hlen
    by (vm_compute; lia).
  split; [exact Hlen|].
  exact (@txt_records_one_per_cell demo quiet (html_of five_tables)
           "example.com" [] Hlen).
Defined.

Lemma parse_result_shape_witness :
  parse_five = (Ok parsed, parse_five.2) ∧ parsed ≠ VNone
  ∧ ∃ res recs,
      parsed = VDict res
      ∧ res !! "domain" = Some (VStr "example.com")
      ∧ dom res = result_keys
      ∧ res !! "dns_records" = Some (VDict recs)
      ∧ dom recs = record_keys.
Proof.
  assert (parse_five = (Ok parsed, parse_five.2)) as Hparse
    by (vm_compute; reflexivity).
  assert (parsed ≠ VNone) as Hv by (vm_compute; discriminate).
  split; [exact Hparse|]. split; [exact Hv|].
  exact (@parse_result_shape demo quiet (html_of five_tables) "example.com"
           [] (parse_five.2) parsed Hparse Hv).
Defined.

(** The query answered with status 200 and no body, against the query
    answered with status 503. *)
Lemma search_empty_body_witness :
  @get_dnsdumpster silent quiet "example.com"
    (announced quiet "example.com" [])
  = (Ok (Some ""),
     announced quiet "example.com" []
     ++ [EvRequest (query quiet "example.com")])
  ∧ @search silent quiet "example.com" []
    = (Ok VNone,
       announced quiet "example.com" []
       ++ [EvRequest (query quiet "example.com")])
  ∧ parser_calls (announced quiet "example.com" []
                  ++ [EvRequest (query quiet "example.com")])
    = parser_calls []
  ∧ (@search silent quiet "example.com" []).1
    = (@search down quiet "example.com" []).1.
Proof.
  apply (search_empty_body silent down quiet "example.com" [] no_body
           unavailable);
    first [vm_compute; reflexivity | vm_compute; discriminate].
Defined.

(** * Further properties *)

(** ** The language of a pattern, piece by piece *)

Lemma group0_app (k1 k2 : list string) :
  group0 (k1 ++ k2) = group0 k1 +:+ group0 k2.
Proof.
  induction k1 as [|x k1 IH]; [done|].
  rewrite <- List.app_comm_cons, !group0_cons, IH. by rewrite str_app_assoc.
Qed.

Lemma matches_nil (m : string) : matches [] m ↔ m = "".
Proof.
  split.
  - intros (pieces & Hok & ->). by apply Forall2_nil_inv_l in Hok as ->.
  - intros ->. exists []. split; [constructor|done].
Qed.

Lemma matches_cons (a : atom) (p : list atom) (m : string) :
  matches (a :: p) m
  ↔ ∃ x m', atom_ok a x ∧ matches p m' ∧ m = x +:+ m'.
Proof.
  split.
  - intros (pieces & Hok & ->).
    apply Forall2_cons_inv_l in Hok as (x & k & Hx & Hk & ->).
    exists x, (group0 k). rewrite group0_cons. split; [done|].
    split; [by exists k|done].
  - intros (x & m' & Hx & (k & Hk & ->) & ->). exists (x :: k).
    rewrite group0_cons. split; [by constructor|done].
Qed.

Lemma matches_app (p1 p2 : list atom) (m : string) :
  matches (p1 ++ p2) m
  ↔ ∃ m1 m2, matches p1 m1 ∧ matches p2 m2 ∧ m = m1 +:+ m2.
Proof.
  split.
  - intros (pieces & Hok & ->).
    apply Forall2_app_inv_l in Hok as (k1 & k2 & H1 & H2 & ->).
    exists (group0 k1), (group0 k2). rewrite group0_app.
    split; [by exists k1|]. split; [by exists k2|done].
  - intros (m1 & m2 & (k1 & H1 & ->) & (k2 & H2 & ->) & ->).
    exists (k1 ++ k2). rewrite group0_app. split; [by apply Forall2_app|done].
Qed.

(** An escaped text matches itself and nothing else. *)
Lemma matches_escape (s m : string) : matches (escape s) m ↔ m = s.
Proof.
  revert m. induction s as [|c s IH]; intros m; simpl.
  - apply matches_nil.
  - rewrite matches_cons. split.
    + intros (x & m' & Hx & Hm & ->). simpl in Hx. subst x.
      apply IH in Hm as ->. done.
    + intros ->. exists (String c ""), s. split; [done|].
      split; [by apply IH|done].
Qed.

Lemma Forall2_escape (s : string) (k : list string) :
  Forall2 atom_ok (escape s) k → group0 k = s ∧ length k = String.length s.
Proof.
  revert k. induction s as [|c s IH]; intros k Hok; simpl in Hok.
  - by apply Forall2_nil_inv_l in Hok as ->.
  - apply Forall2_cons_inv_l in Hok as (x & k' & Hx & Hk & ->).
    simpl in Hx. subst x. destruct (IH _ Hk) as [Hg Hl].
    rewrite group0_cons, Hg. simpl. by rewrite Hl.
Qed.

Lemma matches_single (a : atom) (m : string) : matches [a] m ↔ atom_ok a m.
Proof.
  rewrite matches_cons. split.
  - intros (x & m' & Hx & ->%matches_nil & ->). by rewrite str_app_nil_r.
  - intros Hm. exists m, "". rewrite str_app_nil_r.
    split; [done|]. split; [by apply matches_nil|done].
Qed.

Lemma atom_ok_any (m : string) :
  atom_ok any m ↔ ∃ c, c ≠ newline ∧ m = String c "".
Proof.
  unfold any. simpl. split.
  - intros (Hall & Hlo & Hhi). destruct m as [|c [|c' m]]; simpl in *;
      [lia| |lia].
    exists c. split; [|done].
    apply andb_True in Hall as [Hc _]. by apply bool_decide_unpack in Hc.
  - intros (c & Hc & ->). simpl. repeat split; [|lia|lia].
    rewrite bool_decide_eq_true_2 by done. done.
Qed.

Lemma forall_chars_contains (c : ascii) (s : string) :
  forall_chars (λ a, bool_decide (a ≠ c)) s → contains c s = false.
Proof.
  induction s as [|a s IH]; [done|]. simpl.
  intros [Ha%bool_decide_unpack Hs]%andb_True.
  rewrite decide_False by done. by apply IH.
Qed.

(** X3: the texts the pattern of an asset matches are exactly those made of
    https://api, one character other than a newline, dnsdumpster, again one
    such character, com/static/, the directory, a slash, the domain letter
    for letter, a hyphen, one or more of a-f, 0-9 and the hyphen, a dot and
    the extension.  The domain is matched literally; the two dots of the
    host name are not. *)
Theorem asset_pattern_language (dir domain ext u : string) :
  matches (pattern_asset dir domain ext) u
  ↔ ∃ c1 c2 h,
      c1 ≠ newline ∧ c2 ≠ newline ∧ h ≠ "" ∧ forall_chars ishexdash h
      ∧ u = "https://api"
            +:+ String c1
                  ("dnsdumpster"
                   +:+ String c2
                         ("com/static/" +:+ dir +:+ "/" +:+ domain +:+ "-"
                          +:+ h +:+ "." +:+ ext)).
Proof.
  unfold pattern_asset. split.
  - intros (m1 & r1 & ->%matches_escape & Hr1 & ->)%matches_app.
    apply matches_app in Hr1
      as (m2 & r2 & (c1 & Hc1 & ->)%matches_single%atom_ok_any & Hr2 & ->).
    apply matches_app in Hr2 as (m3 & r3 & ->%matches_escape & Hr3 & ->).
    apply matches_app in Hr3
      as (m4 & r4 & (c2 & Hc2 & ->)%matches_single%atom_ok_any & Hr4 & ->).
    apply matches_app in Hr4 as (m5 & r5 & ->%matches_escape & Hr5 & ->).
    apply matches_app in Hr5 as (m6 & r6 & ->%matches_escape & Hr6 & ->).
    apply matches_app in Hr6 as (m7 & r7 & Hm7 & ->%matches_escape & ->).
    apply matches_cons in Hm7 as (x & m8 & Hx & Hm8 & ->).
    apply matches_cons in Hm8 as (h & m9 & (Hh & Hlen & _) & Hm9 & ->).
    apply matches_single in Hm9. simpl in Hx, Hm9. subst x m9.
    exists c1, c2, h. repeat split; try done.
    + intros ->. simpl in Hlen. lia.
    + by rewrite !str_app_assoc.
  - intros (c1 & c2 & h & Hc1 & Hc2 & Hh & Hall & ->).
    apply matches_app. eexists "https://api", _. split; [by apply matches_escape|].
    split; [|reflexivity].
    apply matches_app. eexists (String c1 ""), _.
    split; [apply matches_single, atom_ok_any; by exists c1|].
    split; [|reflexivity].
    apply matches_app. eexists "dnsdumpster", _.
    split; [by apply matches_escape|]. split; [|reflexivity].
    apply matches_app. eexists (String c2 ""), _.
    split; [apply matches_single, atom_ok_any; by exists c2|].
    split; [|reflexivity].
    apply matches_app. eexists ("com/static/" +:+ dir +:+ "/"), _.
    split; [by apply matches_escape|].
    split; [|by rewrite !str_app_assoc].
    apply matches_app. eexists domain, _. split; [by apply matches_escape|].
    split; [|reflexivity].
    apply matches_app. eexists ("-" +:+ h +:+ "."), ext.
    split; [|split; [by apply matches_escape|by rewrite !str_app_assoc]].
    apply matches_cons. exists "-", (h +:+ "."). split; [done|].
    split; [|done].
    apply matches_cons. exists h, ".". split; [|split; [|done]].
    + split; [done|]. split; [destruct h; [done|simpl; lia]|done].
    + by apply matches_single.
Qed.

(** ** Traces with optional prints *)

Lemma network_calls_print (t : list event) (b : bool) (msg : string) :
  network_calls (t ++ (if b then [EvPrint msg] else [])) = network_calls t.
Proof.
  rewrite network_calls_app. destruct b; simpl; by rewrite List.app_nil_r.
Qed.

Lemma parser_calls_print (t : list event) (b : bool) (msg : string) :
  parser_calls (t ++ (if b then [EvPrint msg] else [])) = parser_calls t.
Proof.
  rewrite parser_calls_app. destruct b; simpl; by rewrite List.app_nil_r.
Qed.

Lemma network_calls_request (t : list event) (rq : request) :
  network_calls (t ++ [EvRequest rq]) = network_calls t ++ [EvRequest rq].
Proof. by rewrite network_calls_app. Qed.

Lemma parser_calls_request (t : list event) (rq : request) :
  parser_calls (t ++ [EvRequest rq]) = parser_calls t.
Proof. rewrite parser_calls_app. simpl. by rewrite List.app_nil_r. Qed.

Section TokenFacts.
Context `{!Libs}.

(** ** [get_token] and the constructor *)

Lemma get_token_unfold (verbose : bool) (t : list event) :
  get_token verbose t
  = match net t (GET landing) with
    | Raise e => (Raise e, t ++ [EvRequest (GET landing)])
    | Ok r =>
        if bool_decide (status_code r = 200%Z)
        then match Re.search pattern_token (resp_text r) with
             | Some pieces =>
                 (Ok (Some (default "" (pieces !! token_group))),
                  (t ++ [EvRequest (GET landing)])
                  ++ (if verbose
                      then [EvPrint ("Authorization Token found: "
                                     +:+ default "" (pieces !! token_group))]
                      else []))
             | None =>
                 (Ok None,
                  (t ++ [EvRequest (GET landing)])
                  ++ (if verbose
                      then [EvPrint
                              "Authorization Token not found in HTML content."]
                      else []))
             end
        else (Ok None,
              (t ++ [EvRequest (GET landing)])
              ++ (if verbose
                  then [EvPrint ("Error in request: "
                                 +:+ pretty (status_code r))]
                  else []))
    end.
Proof.
  unfold get_token. cbv zeta. fold landing.
  destruct (net t (GET landing)) as [r|e] eqn:Hnet.
  - erewrite io_bind_Ok by (unfold requests; by rewrite Hnet). cbv beta.
    destruct (bool_decide (status_code r = 200%Z)).
    + destruct (Re.search pattern_token (resp_text r)) as [pieces|].
      * cbv zeta. erewrite io_bind_Ok by apply when_trace. done.
      * erewrite io_bind_Ok by apply when_trace. done.
    + erewrite io_bind_Ok by apply when_trace. done.
  - erewrite io_bind_Raise by (unfold requests; by rewrite Hnet). done.
Qed.

(** The pieces of a match of the token's pattern: the opening text, at most
    one white-space character, and between two double quotes a text that is
    not empty and holds no double quote; that text is the piece the token is
    read from. *)
Lemma token_pieces (pieces : list string) :
  Forall2 atom_ok pattern_token pieces →
  ∃ w tok,
    pieces !! token_group = Some tok
    ∧ group0 pieces
      = token_opening +:+ w +:+ String dquote (tok +:+ String dquote "")
    ∧ (w = "" ∨ ∃ c, isspace c = true ∧ w = String c "")
    ∧ tok ≠ "" ∧ contains dquote tok = false.
Proof.
  unfold pattern_token. fold token_opening.
  intros (k1 & k2 & [Hg Hlen]%Forall2_escape & H2 & ->)%Forall2_app_inv_l.
  apply Forall2_cons_inv_l in H2 as (w & k3 & (Hw & _ & Hw1) & H3 & ->).
  apply Forall2_cons_inv_l in H3 as (q1 & k4 & Hq1 & H4 & ->).
  apply Forall2_cons_inv_l in H4 as (tok & k5 & (Htok & Hlo & _) & H5 & ->).
  apply Forall2_cons_inv_l in H5 as (q2 & k6 & Hq2 & ->%Forall2_nil_inv_l & ->).
  simpl in Hq1, Hq2, Hw1. subst q1 q2.
  exists w, tok. split; [|split; [|split; [|split]]].
  - rewrite lookup_app_r by (rewrite Hlen; vm_compute; lia).
    rewrite Hlen. reflexivity.
  - rewrite group0_app, !group0_cons, Hg.
    by rewrite str_app_nil_r, !str_app_cons, !str_app_nil_l.
  - destruct w as [|c [|c' w]]; simpl in Hw1; [by left| |lia].
    right. exists c. split; [|done].
    simpl in Hw. apply andb_True in Hw as [Hc _]. by apply Is_true_true.
  - intros ->. simpl in Hlo. lia.
  - by apply forall_chars_contains.
Qed.

(** X1: a token [get_token] returns was read from a page answered with
    status 200; it is not empty and holds no double quote; and it stands in
    the page between double quotes, after the opening text and at most one
    white-space character, at the leftmost place where the pattern
    matches. *)
Theorem get_token_token_shape (verbose : bool) (t t' : list event)
    (tok : string) :
  get_token verbose t = (Ok (Some tok), t') →
  ∃ r pre w post,
    net t (GET landing) = Ok r ∧ status_code r = 200%Z
    ∧ tok ≠ "" ∧ contains dquote tok = false
    ∧ resp_text r
      = pre +:+ token_opening +:+ w
        +:+ String dquote (tok +:+ String dquote post)
    ∧ (w = "" ∨ ∃ c, isspace c = true ∧ w = String c "")
    ∧ ∀ j m, occurs_at (resp_text r) j m → matches pattern_token m →
             String.length pre ≤ j.
Proof.
  rewrite get_token_unfold.
  destruct (net t (GET landing)) as [r|e]; [|done].
  destruct (bool_decide (status_code r = 200%Z)) eqn:Hst; [|done].
  apply bool_decide_eq_true in Hst.
  destruct (Re.search pattern_token (resp_text r)) as [pieces|] eqn:Hs;
    [|done].
  intros [= <- <-].
  apply search_leftmost in Hs as (pre & post0 & Htext & Hhere & Hleft).
  destruct (match_here_sound _ _ _ Hhere) as (Hok & rest & ->).
  destruct (token_pieces _ Hok) as (w & tok & -> & Hg & Hw & Hne & Hq).
  exists r, pre, w, rest. simpl. repeat split; try done.
  rewrite Htext, Hg. f_equal.
  by rewrite !str_app_assoc, !str_app_cons, !str_app_assoc, !str_app_cons,
    str_app_nil_l.
Qed.

(** X2: the constructor either raises what the GET of the landing page
    raised, or returns a client with the verbosity asked for, having made
    that one GET and no other call; the client's token is [None] or a
    non-empty text, never the empty text, so that [get_dnsdumpster] on this
    client makes its POST, with that token as the Authorization header and
    the target as the form, exactly when a token was found. *)
Theorem init_client_token (verbose0 : bool) (t : list event) :
  match init verbose0 t with
  | (Raise e, t') =>
      net t (GET landing) = Raise e ∧ t' = t ++ [EvRequest (GET landing)]
  | (Ok self, t') =>
      verbose self = verbose0
      ∧ authorization self ≠ Some ""
      ∧ network_calls t' = network_calls t ++ [EvRequest (GET landing)]
      ∧ parser_calls t' = parser_calls t
      ∧ ∀ target t2,
          network_calls (get_dnsdumpster self target t2).2
          = network_calls t2
            ++ match authorization self with
               | Some tok =>
                   [EvRequest
                      (POST "https://api.dnsdumpster.com/htmld/"
                         {[ "Authorization" := tok ]}
                         {[ "target" := target ]})]
               | None => []
               end
  end.
Proof.
  unfold init, mbind, IO_bind.
  destruct (get_token verbose0 t) as [[token|e] t'] eqn:Hget.
  - simpl. split; [done|].
    assert (token ≠ Some "") as Hne.
    { intros ->.
      by destruct (get_token_token_shape _ _ _ _ Hget)
        as (? & ? & ? & ? & _ & _ & ? & _). }
    split; [done|].
    assert (network_calls t' = network_calls t ++ [EvRequest (GET landing)]
            ∧ parser_calls t' = parser_calls t) as [Hn Hp].
    { rewrite get_token_unfold in Hget.
      destruct (net t (GET landing)) as [r|]; [|done].
      destruct (bool_decide (status_code r = 200%Z));
        [destruct (Re.search pattern_token (resp_text r))|];
        simplify_eq;
        by rewrite network_calls_print, parser_calls_print,
          network_calls_request, parser_calls_request. }
    split; [done|]. split; [done|].
    intros target t2. destruct token as [tok|].
    + rewrite get_dnsdumpster_token by (simpl; by destruct tok).
      unfold query. cbn [authorization default from_option].
      destruct (net t2 _) as [r|e]; [destruct (bool_decide _)|];
        cbn [snd];
        by rewrite ?network_calls_print, network_calls_request.
    + rewrite get_dnsdumpster_no_token by done. cbn [snd authorization].
      by rewrite (network_calls_print t2 true), List.app_nil_r.
  - rewrite get_token_unfold in Hget.
    destruct (net t (GET landing)) as [r|e0]; [|by simplify_eq].
    destruct (bool_decide (status_code r = 200%Z));
      [destruct (Re.search pattern_token (resp_text r))|]; done.
Qed.

End TokenFacts.

Section CallFacts.
Context `{!Libs}.

(** ** The calls of [parse_dnsdumpster] and [search] *)

(** A fetch asks for the first match of its pattern, if there is one, and
    for nothing else. *)
Lemma fetch_asset_calls (self : client) (pattern : list atom)
    (html found failed : string) (t : list event) :
  network_calls (fetch_asset self pattern html found failed t).2
  = network_calls t ++ asset_requests pattern html
  ∧ parser_calls (fetch_asset self pattern html found failed t).2
    = parser_calls t.
Proof.
  unfold asset_requests.
  destruct (Re.search pattern html) as [pieces|] eqn:Hs.
  - destruct (net (found_trace self found (group0 pieces) t)
                (GET (group0 pieces))) as [r|e] eqn:Hnet.
    + erewrite fetch_asset_response by done. unfold found_trace. cbn [snd].
      by rewrite network_calls_request, parser_calls_request,
        network_calls_print, parser_calls_print.
    + erewrite fetch_asset_raises by done. unfold found_trace. cbn [snd].
      by rewrite network_calls_print, parser_calls_print,
        network_calls_request, parser_calls_request,
        network_calls_print, parser_calls_print.
  - rewrite fetch_asset_no_match by done. cbn [snd].
    by rewrite network_calls_print, parser_calls_print, List.app_nil_r.
Qed.

(** What a fetch asks for stands in the page and is matched by the
    pattern. *)
Lemma asset_requests_in_page (pattern : list atom) (html : string) (e : event) :
  e ∈ asset_requests pattern html →
  ∃ url i, e = EvRequest (GET url) ∧ occurs_at html i url
           ∧ matches pattern url.
Proof.
  unfold asset_requests.
  destruct (Re.search pattern html) as [pieces|] eqn:Hs;
    [|by intros ?%elem_of_nil].
  intros ->%list_elem_of_singleton.
  apply search_leftmost in Hs as (pre & post & -> & Hhere & _).
  destruct (match_here_sound _ _ _ Hhere) as (Hok & rest & ->).
  exists (group0 pieces), (String.length pre). split; [done|].
  split; [by exists pre, rest | by exists pieces].
Qed.

(** X4: whatever it returns, [parse_dnsdumpster] calls the parser once, on
    the page it was given; below five tables it makes no network call, and
    from five tables on it makes one GET for the map if the map's pattern
    matches in the page, then one GET for the spreadsheet if that pattern
    matches, and no other; each URL asked for stands in the page and is
    matched by its pattern. *)
Theorem parse_network_calls (self : client) (html domain : string)
    (t : list event) :
  parser_calls (parse_dnsdumpster self html domain t).2
  = parser_calls t ++ [EvSoup html]
  ∧ network_calls (parse_dnsdumpster self html domain t).2
    = network_calls t
      ++ (if bool_decide (5 ≤ length (findAll "table" (html_parser html)))
          then asset_requests (pattern_map domain) html
               ++ asset_requests (pattern_xls domain) html
          else [])
  ∧ ∀ e,
      e ∈ asset_requests (pattern_map domain) html
          ++ asset_requests (pattern_xls domain) html →
      ∃ url i,
        e = EvRequest (GET url) ∧ occurs_at html i url
        ∧ (matches (pattern_map domain) url
           ∨ matches (pattern_xls domain) url).
Proof.
  split; [|split].
  - destruct (decide (length (findAll "table" (html_parser html)) < 4)).
    { rewrite parse_few_tables by done. cbn [snd].
      by rewrite parser_calls_print, parser_calls_app. }
    destruct (decide (length (findAll "table" (html_parser html)) = 4)).
    { rewrite parse_four_tables by done. cbn [snd].
      by rewrite parser_calls_app. }
    destruct (parse_five_tables self html domain t)
      as (t1 & t2 & t3 & t4 & image & xls & tr1 & tr2 & _ & _ & _ & _
          & Himage & Hxls & ->); [lia|].
    cbn [snd]. unfold fetch_map, fetch_xls in *.
    pose proof (fetch_asset_calls self (pattern_xls domain) html
                  "XLS URL: " "Error obtaining XLS file: " tr1) as [_ Hp2].
    pose proof (fetch_asset_calls self (pattern_map domain) html
                  "Network mapping image URL: "
                  "Error obtaining mapping image: " (t ++ [EvSoup html]))
      as [_ Hp1].
    rewrite Hxls in Hp2. rewrite Himage in Hp1. cbn [snd] in Hp1, Hp2.
    by rewrite Hp2, Hp1, parser_calls_app.
  - destruct (decide (length (findAll "table" (html_parser html)) < 4)).
    { rewrite parse_few_tables by done. cbn [snd].
      rewrite bool_decide_eq_false_2 by lia.
      rewrite network_calls_print, network_calls_app. simpl.
      by rewrite !List.app_nil_r. }
    destruct (decide (length (findAll "table" (html_parser html)) = 4)).
    { rewrite parse_four_tables by done. cbn [snd].
      rewrite bool_decide_eq_false_2 by lia.
      rewrite network_calls_app. simpl. by rewrite !List.app_nil_r. }
    rewrite bool_decide_eq_true_2 by lia.
    destruct (parse_five_tables self html domain t)
      as (t1 & t2 & t3 & t4 & image & xls & tr1 & tr2 & _ & _ & _ & _
          & Himage & Hxls & ->); [lia|].
    cbn [snd]. unfold fetch_map, fetch_xls in *.
    pose proof (fetch_asset_calls self (pattern_xls domain) html
                  "XLS URL: " "Error obtaining XLS file: " tr1) as [Hn2 _].
    pose proof (fetch_asset_calls self (pattern_map domain) html
                  "Network mapping image URL: "
                  "Error obtaining mapping image: " (t ++ [EvSoup html]))
      as [Hn1 _].
    rewrite Hxls in Hn2. rewrite Himage in Hn1. cbn [snd] in Hn1, Hn2.
    rewrite Hn2, Hn1, network_calls_app. simpl.
    by rewrite List.app_nil_r, <- List.app_assoc.
  - intros e [He|He]%elem_of_app;
      apply asset_requests_in_page in He as (url & i & -> & Hocc & Hm);
      exists url, i; auto.
Qed.

End CallFacts.

Section SearchOutcomes.
Context `{!Libs}.

Lemma truthy_ne (s : string) : truthy s = true ↔ s ≠ "".
Proof. by destruct s. Qed.

Lemma search_cases (self : client) (domain : string) (t : list event) :
  search self domain t
  = if truthy_opt (authorization self)
    then match net (announced self domain t) (query self domain) with
         | Raise e =>
             (Raise e,
              announced self domain t ++ [EvRequest (query self domain)])
         | Ok r =>
             if bool_decide (status_code r ≠ 200%Z)
             then (Ok VNone,
                   (announced self domain t
                    ++ [EvRequest (query self domain)])
                   ++ (if verbose self
                       then [EvPrint
                               ("Error: Request failed with status code "
                                +:+ pretty (status_code r))]
                       else []))
             else if truthy (resp_text r)
                  then parse_dnsdumpster self (resp_text r) domain
                         (announced self domain t
                          ++ [EvRequest (query self domain)])
                  else (Ok VNone,
                        announced self domain t
                        ++ [EvRequest (query self domain)])
         end
    else (Ok VNone,
          announced self domain t
          ++ [EvPrint "Authorization token is missing."]).
Proof.
  rewrite search_unfold.
  destruct (truthy_opt (authorization self)) eqn:Htok.
  - rewrite get_dnsdumpster_token by done.
    destruct (net (announced self domain t) (query self domain)) as [r|e];
      [|done].
    by destruct (bool_decide (status_code r ≠ 200%Z)).
  - by rewrite get_dnsdumpster_no_token.
Qed.



(** X6: the calls of [search].  Without a token it makes no network call.
    With one it makes the POST first; then, only if the POST is answered
    with status 200 and a non-empty page, it calls the parser, once and on
    that page, and only if that page has five tables or more it goes on to
    the GETs of the assets whose patterns match in it, the map before the
    spreadsheet: three network calls at the most. *)
Theorem search_calls (self : client) (domain : string) (t : list event) :
  let page :=
    if truthy_opt (authorization self)
    then match net (announced self domain t) (query self domain) with
         | Ok r =>
             if bool_decide (status_code r = 200%Z) && truthy (resp_text r)
             then Some (resp_text r) else None
         | Raise _ => None
         end
    else None in
  let gets :=
    match page with
    | Some html =>
        if bool_decide (5 ≤ length (findAll "table" (html_parser html)))
        then asset_requests (pattern_map domain) html
             ++ asset_requests (pattern_xls domain) html
        else []
    | None => []
    end in
  network_calls (search self domain t).2
  = network_calls t
    ++ (if truthy_opt (authorization self)
        then EvRequest (query self domain) :: gets else [])
  ∧ parser_calls (search self domain t).2
    = parser_calls t ++ from_option (λ html, [EvSoup html]) [] page
  ∧ length gets ≤ 2.
Proof.
  intros page gets. split; [|split].
  - subst gets page. rewrite search_cases.
    destruct (truthy_opt (authorization self)) eqn:Htok; cbn [snd].
    2: { by rewrite (network_calls_print _ true), network_calls_announced,
           List.app_nil_r. }
    destruct (net (announced self domain t) (query self domain)) as [r|e0];
      cbn [snd].
    2: { by rewrite network_calls_request, network_calls_announced. }
    destruct (decide (status_code r = 200%Z)) as [Hst|Hst].
    + rewrite bool_decide_eq_false_2 by (intros Hne; by apply Hne).
      rewrite (bool_decide_eq_true_2 _ Hst). cbn [andb].
      destruct (truthy (resp_text r)).
      * destruct (parse_network_calls self (resp_text r) domain
                    (announced self domain t
                     ++ [EvRequest (query self domain)])) as (_ & -> & _).
        rewrite network_calls_request, network_calls_announced.
        by rewrite <- List.app_assoc.
      * cbn [snd]. by rewrite network_calls_request, network_calls_announced.
    + rewrite bool_decide_eq_true_2 by done.
      rewrite (bool_decide_eq_false_2 _ Hst). cbn [andb snd].
      by rewrite network_calls_print, network_calls_request,
        network_calls_announced.
  - subst page. rewrite search_cases.
    destruct (truthy_opt (authorization self)) eqn:Htok; cbn [snd].
    2: { by rewrite (parser_calls_print _ true), parser_calls_announced,
           List.app_nil_r. }
    destruct (net (announced self domain t) (query self domain)) as [r|e0];
      cbn [snd].
    2: { by rewrite parser_calls_request, parser_calls_announced,
           List.app_nil_r. }
    destruct (decide (status_code r = 200%Z)) as [Hst|Hst].
    + rewrite bool_decide_eq_false_2 by (intros Hne; by apply Hne).
      rewrite (bool_decide_eq_true_2 _ Hst). cbn [andb].
      destruct (truthy (resp_text r)).
      * destruct (parse_network_calls self (resp_text r) domain
                    (announced self domain t
                     ++ [EvRequest (query self domain)])) as (-> & _ & _).
        by rewrite parser_calls_request, parser_calls_announced.
      * cbn [snd from_option].
        by rewrite parser_calls_request, parser_calls_announced,
          List.app_nil_r.
    + rewrite bool_decide_eq_true_2 by done.
      rewrite (bool_decide_eq_false_2 _ Hst). cbn [andb snd from_option].
      by rewrite parser_calls_print, parser_calls_request,
        parser_calls_announced, List.app_nil_r.
  - subst gets. destruct page as [html|]; [|simpl; lia].
    destruct (bool_decide _); [|simpl; lia].
    rewrite length_app. unfold asset_requests.
    destruct (Re.search (pattern_map domain) html),
      (Re.search (pattern_xls domain) html); simpl; lia.
Qed.

End SearchOutcomes.

(** ** What [split] cuts *)

(** Brings both sides of an equation between texts to the same nesting. *)
Ltac str_norm :=
  repeat first
    [ rewrite str_app_assoc | rewrite str_app_cons | rewrite str_app_nil_l
    | rewrite str_app_nil_r ].

Lemma contains_app (c : ascii) (s t : string) :
  contains c (s +:+ t) = contains c s || contains c t.
Proof.
  induction s as [|a s IH]; [done|].
  rewrite str_app_cons. cbn [contains]. by destruct (decide (a = c)).
Qed.

(** Splitting on one character: a text without it is the one piece;
    otherwise the first piece is what stands before its first occurrence
    and the other pieces are those of what follows it. *)
Lemma split_char_cases (c : ascii) (s : string) :
  (contains c s = false ∧ split (String c "") s = [s])
  ∨ ∃ p s',
      contains c p = false ∧ s = p +:+ String c s'
      ∧ split (String c "") s = p :: split (String c "") s'.
Proof.
  unfold split. induction s as [|a s IH]; [by left|].
  cbn [split_go contains String.prefix].
  destruct (ascii_dec c a) as [<-|Hne].
  - right. exists "", s. rewrite prefix_nil. by rewrite str_app_nil_l.
  - rewrite decide_False by done.
    destruct IH as [[Hc ->]|(p & s' & Hc & -> & ->)].
    + left. split; [done|]. reflexivity.
    + right. exists (String a p), s'. cbn [contains cons_head].
      rewrite decide_False by done. by rewrite str_app_cons.
Qed.

(** The first piece of a split stands at the front of the text, and what
    follows it is nothing or starts with the separator. *)
Lemma split_first (sep s : string) :
  ∃ p ps rest,
    split sep s = p :: ps ∧ s = p +:+ rest
    ∧ (rest = "" ∨ String.prefix sep rest = true).
Proof.
  unfold split. induction s as [|a s IH].
  - exists "", [], "". by split; [|split; [|left]].
  - cbn [split_go]. destruct (String.prefix sep (String a s)) eqn:Hp.
    + eexists "", _, (String a s). split; [done|]. split; [done|by right].
    + destruct IH as (p & ps & rest & -> & -> & Hrest).
      exists (String a p), ps, rest. by rewrite str_app_cons.
Qed.

Lemma prefix_br (rest : string) :
  String.prefix br rest = true → ∃ rest', rest = String "<" rest'.
Proof.
  destruct rest as [|a rest]; [done|]. unfold br. cbn [String.prefix].
  destruct (ascii_dec "<" a) as [<-|]; [by eexists|done].
Qed.

Section FieldFacts.
Context `{!Libs}.

(** ** The fields of an entry *)

(** What [host_of] reads: the text of [str(td)] that follows its first
    closing angle bracket, up to the next angle bracket of either kind or
    the end. *)
Lemma host_of_Ok (td : node) (host : string) :
  host_of td = Ok host →
  contains "<" host = false ∧ contains ">" host = false
  ∧ ∃ pre post,
      tag_str td = pre +:+ ">" +:+ host +:+ post
      ∧ contains ">" pre = false
      ∧ (post = "" ∨ ∃ post', post = String "<" post' ∨ post = String ">" post').
Proof.
  unfold host_of.
  destruct (split_first br (tag_str td))
    as (before & ps & rest & Hsplit & Htag & Hrest).
  rewrite Hsplit. cbn [getitem lookup list_lookup mbind result_bind].
  destruct (split_char_cases ">" before)
    as [[_ ->]|(pre & s1 & Hpre & -> & ->)]; [done|].
  cbn [getitem lookup list_lookup mbind result_bind].
  destruct (split_char_cases ">" s1)
    as [[Hs1 ->]|(after & s2 & Hafter & -> & ->)];
    cbn [getitem lookup list_lookup mbind result_bind].
  - destruct (split_char_cases "<" s1)
      as [[Hlt ->]|(h & s3 & Hh & -> & ->)];
      cbn [getitem lookup list_lookup]; intros [= <-].
    + split; [done|]. split; [done|]. exists pre, rest.
      split; [rewrite Htag; by str_norm|]. split; [done|].
      destruct Hrest as [->|(rest' & ->)%prefix_br]; [by left|].
      right. exists rest'. by left.
    + rewrite contains_app in Hs1. apply orb_false_elim in Hs1 as [Hgt _].
      split; [done|]. split; [done|]. exists pre, (String "<" s3 +:+ rest).
      split; [rewrite Htag; by str_norm|]. split; [done|].
      right. exists (s3 +:+ rest). by left.
  - destruct (split_char_cases "<" after)
      as [[Hlt ->]|(h & s3 & Hh & -> & ->)];
      cbn [getitem lookup list_lookup]; intros [= <-].
    + split; [done|]. split; [done|].
      exists pre, (String ">" s2 +:+ rest).
      split; [rewrite Htag; by str_norm|]. split; [done|].
      right. exists (s2 +:+ rest). by right.
    + rewrite contains_app in Hafter.
      apply orb_false_elim in Hafter as [Hgt _].
      split; [done|]. split; [done|].
      exists pre, (String "<" s3 +:+ String ">" s2 +:+ rest).
      split; [rewrite Htag; by str_norm|]. split; [done|].
      right. exists (s3 +:+ String ">" s2 +:+ rest). by left.
Qed.

(** X7: the host of an entry is the text that stands in [str(td)] of the
    row's first cell right after the first closing angle bracket and runs
    to the next angle bracket of either kind, or to the end: it holds no
    angle bracket itself. *)
Theorem host_is_leading_text (tds : list node) (data : gmap string value) :
  row_data tds = Ok data →
  ∃ td0 host pre post,
    tds !! 0 = Some td0 ∧ data !! "host" = Some (VStr host)
    ∧ contains "<" host = false ∧ contains ">" host = false
    ∧ tag_str td0 = pre +:+ ">" +:+ host +:+ post
    ∧ contains ">" pre = false
    ∧ (post = "" ∨ ∃ post', post = String "<" post' ∨ post = String ">" post').
Proof.
  intros (td0 & td1 & host & ip & asn & asn_range & H0 & Hh & _ & _ & _ & ->)
    %row_data_Ok.
  apply host_of_Ok in Hh as (Hlt & Hgt & pre & post & Htag & Hpre & Hpost).
  exists td0, host, pre, post.
  split; [done|]. split; [by unfold entry; simplify_map_eq|]. done.
Qed.

(** X8: in an entry, as and asn_range hold no line break.  Either the text
    of the row's third cell holds no line break (or the cell is missing) and
    both are empty, or that text reads: a first line, a line break, as, a
    line break, asn_range, and then nothing or a further line break. *)
Theorem as_and_range_are_lines (tds : list node) (data : gmap string value) :
  row_data tds = Ok data →
  ∃ asn asn_range,
    data !! "as" = Some (VStr asn)
    ∧ data !! "asn_range" = Some (VStr asn_range)
    ∧ contains newline asn = false ∧ contains newline asn_range = false
    ∧ ((contains newline (as_text tds) = false ∧ asn = "" ∧ asn_range = "")
       ∨ ∃ first rest,
           contains newline first = false
           ∧ as_text tds
             = first +:+ nl +:+ asn +:+ nl +:+ asn_range +:+ rest
           ∧ (rest = "" ∨ ∃ rest', rest = String newline rest')).
Proof.
  intros (td0 & td1 & host & ip & asn & asn_range & _ & _ & _ & _ & Has & ->)
    %row_data_Ok.
  exists asn, asn_range.
  split; [by unfold entry; simplify_map_eq|].
  split; [by unfold entry; simplify_map_eq|].
  destruct (contains newline (as_text tds)) eqn:Hc.
  2: { destruct Has as [-> ->]. split; [done|]. split; [done|]. by left. }
  destruct Has as [H1 H2]. unfold nl in *.
  destruct (split_char_cases newline (as_text tds))
    as [[Hno _]|(first & s1 & Hfirst & Htext & Hsplit)]; [congruence|].
  rewrite Hsplit in H1, H2. cbn [lookup list_lookup] in H1, H2.
  destruct (split_char_cases newline s1)
    as [[_ Hs1]|(a & s2 & Ha & -> & Hs1)];
    rewrite Hs1 in H1, H2; cbn [lookup list_lookup] in H1, H2; [done|].
  simplify_eq.
  destruct (split_char_cases newline s2)
    as [[Hr Hs2]|(r & s3 & Hr & -> & Hs2)];
    rewrite Hs2 in H2; cbn [lookup list_lookup] in H2; simplify_eq.
  - split; [done|]. split; [done|]. right. exists first, "".
    split; [done|]. split; [|by left].
    rewrite Htext. by str_norm.
  - split; [done|]. split; [done|]. right. exists first, (String newline s3).
    split; [done|]. split; [|right; by eexists].
    rewrite Htext. by str_norm.
Qed.

End FieldFacts.

(** ** What [strip] leaves *)

Lemma rev_app_spec (s acc : string) :
  String.rev_app s acc = String.rev s +:+ acc.
Proof.
  revert acc. induction s as [|a s IH]; intros acc; [done|].
  unfold String.rev. simpl. rewrite (IH (String a acc)), (IH (String a "")).
  by str_norm.
Qed.

Lemma rev_cons (a : ascii) (s : string) :
  String.rev (String a s) = String.rev s +:+ String a "".
Proof. unfold String.rev at 1. simpl. apply rev_app_spec. Qed.

Lemma rev_snoc (s : string) (c : ascii) :
  String.rev (s +:+ String c "") = String c (String.rev s).
Proof.
  induction s as [|a s IH]; [done|].
  rewrite str_app_cons, !rev_cons, IH. by str_norm.
Qed.

Lemma truthy_snoc (s : string) (c : ascii) : truthy (s +:+ String c "") = true.
Proof. by destruct s. Qed.

Lemma truthy_rev (s : string) : truthy (String.rev s) = truthy s.
Proof. destruct s as [|a s]; [done|]. rewrite rev_cons. apply truthy_snoc. Qed.

Lemma truthy_app_r (s t : string) : truthy t = true → truthy (s +:+ t) = true.
Proof. by destruct s. Qed.

Lemma lstrip_snoc (s : string) (c : ascii) :
  lstrip (s +:+ String c "")
  = if truthy (lstrip s) then lstrip s +:+ String c ""
    else lstrip (String c "").
Proof.
  induction s as [|a s IH]; [done|].
  rewrite str_app_cons. cbn [lstrip]. by destruct (isspace a).
Qed.

(** [rstrip] from the front: a character stays when something stays after
    it, or when it is not white space. *)
Lemma rstrip_cons (c : ascii) (s : string) :
  rstrip (String c s)
  = if truthy (rstrip s) then String c (rstrip s)
    else if isspace c then "" else String c "".
Proof.
  unfold rstrip. rewrite rev_cons, lstrip_snoc, truthy_rev.
  destruct (truthy (lstrip (String.rev s))) eqn:Ht.
  - by rewrite rev_snoc.
  - simpl. by destruct (isspace c).
Qed.

Lemma lstrip_length (s : string) :
  String.length (lstrip s) ≤ String.length s.
Proof.
  induction s as [|c s IH]; [done|]. simpl. destruct (isspace c); simpl; lia.
Qed.

Lemma lstrip_leads_clean (s : string) : leads_clean (lstrip s) = true.
Proof.
  induction s as [|c s IH]; [done|]. simpl.
  destruct (isspace c) eqn:Hc; [done|]. simpl. by rewrite Hc.
Qed.

Lemma lstrip_id (s : string) : lstrip s = s ↔ leads_clean s = true.
Proof.
  destruct s as [|c s]; [done|]. simpl. destruct (isspace c) eqn:Hc; simpl.
  - split; [|done]. intros Heq. pose proof (lstrip_length s) as Hlen.
    rewrite Heq in Hlen. simpl in Hlen. lia.
  - done.
Qed.

Lemma rstrip_leads_clean (s : string) :
  leads_clean s = true → leads_clean (rstrip s) = true.
Proof.
  destruct s as [|c s]; [done|]. rewrite rstrip_cons. simpl.
  intros Hc. destruct (truthy (rstrip s)); [done|].
  apply negb_true_iff in Hc. rewrite Hc. simpl. by rewrite Hc.
Qed.

Lemma rstrip_idem (s : string) : rstrip (rstrip s) = rstrip s.
Proof.
  induction s as [|c s IH]; [done|]. rewrite rstrip_cons.
  destruct (truthy (rstrip s)) eqn:Ht.
  - by rewrite rstrip_cons, IH, Ht.
  - destruct (isspace c) eqn:Hc; [done|].
    rewrite rstrip_cons. cbn. by rewrite Hc.
Qed.

Lemma rstrip_app (s t : string) :
  truthy (rstrip t) = true → rstrip (s +:+ t) = s +:+ rstrip t.
Proof.
  intros Ht. induction s as [|c s IH]; [done|].
  rewrite str_app_cons, rstrip_cons, IH.
  by rewrite truthy_app_r.
Qed.

Lemma strip_trimmed (s : string) : trimmed (strip s).
Proof.
  unfold trimmed, strip.
  rewrite (proj2 (lstrip_id (rstrip (lstrip s)))).
  - apply rstrip_idem.
  - apply rstrip_leads_clean, lstrip_leads_clean.
Qed.

Lemma trimmed_sides (s : string) :
  trimmed s ↔ lstrip s = s ∧ rstrip s = s.
Proof.
  unfold trimmed, strip. split.
  - intros Hs.
    assert (lstrip s = s) as Hl.
    { transitivity (lstrip (rstrip (lstrip s))); [by rewrite Hs|].
      rewrite (proj2 (lstrip_id _)); [done|].
      apply rstrip_leads_clean, lstrip_leads_clean. }
    split; [done|]. by rewrite Hl in Hs.
  - intros [-> ->]. done.
Qed.

(** Lines that are trimmed and not empty, joined by newlines, make a text
    that is trimmed. *)
Lemma join_trimmed (ls : list string) :
  Forall (λ l, trimmed l ∧ l ≠ "") ls → trimmed (join nl ls).
Proof.
  intros Hls.
  destruct ls as [|l ls]; [done|].
  assert (lstrip (join nl (l :: ls)) = join nl (l :: ls)
          ∧ rstrip (join nl (l :: ls)) = join nl (l :: ls)
          ∧ truthy (join nl (l :: ls)) = true) as (Hl & Hr & _);
    [|by apply trimmed_sides].
  revert l Hls. induction ls as [|l2 ls IH]; intros l Hls.
  - apply Forall_cons in Hls as [[[Hl Hr]%trimmed_sides Hne] _].
    unfold join. simpl. split; [done|]. split; [done|]. by destruct l.
  - apply Forall_cons in Hls as [[[Hl Hr]%trimmed_sides Hne] Hls].
    destruct (IH l2 Hls) as (Hl2 & Hr2 & Ht2).
    change (join nl (l :: l2 :: ls)) with (l +:+ nl +:+ join nl (l2 :: ls)).
    split; [|split].
    + apply lstrip_id. apply lstrip_id in Hl.
      destruct l as [|c l]; [done|]. by rewrite str_app_cons.
    + assert (rstrip (nl +:+ join nl (l2 :: ls)) = nl +:+ join nl (l2 :: ls))
        as Hnl by (rewrite rstrip_app; by rewrite Hr2).
      rewrite rstrip_app; rewrite Hnl; [done|]. by apply truthy_app_r.
    + by apply truthy_app_r, truthy_app_r.
Qed.

Lemma stripped_lines_trimmed (s : string) :
  Forall (λ l, trimmed l ∧ l ≠ "") (stripped_lines s).
Proof.
  unfold stripped_lines. apply Forall_fmap, Forall_forall.
  intros line Hin%list_elem_of_In%List.filter_In. destruct Hin as [_ Ht].
  simpl. split; [apply strip_trimmed|]. by apply truthy_ne.
Qed.

Section TrimmedFields.
Context `{!Libs}.

(** X9: in an entry, asn_name, asn_country and open_service carry no white
    space at either end: [strip] leaves each of them as it is. *)
Theorem entry_fields_are_trimmed (tds : list node)
    (data : gmap string value) :
  row_data tds = Ok data →
  ∃ asn_name country open_service,
    data !! "asn_name" = Some (VStr asn_name)
    ∧ data !! "asn_country" = Some (VStr country)
    ∧ data !! "open_service" = Some (VStr open_service)
    ∧ trimmed asn_name ∧ trimmed country ∧ trimmed open_service.
Proof.
  intros (td0 & td1 & host & ip & asn & asn_range & _ & _ & _ & _ & _ & ->)
    %row_data_Ok.
  eexists _, _, _.
  do 3 (split; [by unfold entry; simplify_map_eq|]).
  split; [|split].
  - unfold span_text. destruct (name_spans tds !! 0); simpl;
      [apply strip_trimmed|done].
  - unfold span_text. destruct (name_spans tds !! 1); simpl;
      [apply strip_trimmed|done].
  - unfold open_service_of. destruct (tds !! 4); simpl; [|done].
    apply join_trimmed, stripped_lines_trimmed.
Qed.

End TrimmedFields.

(** X10: [retrieve_txt_record] returns texts only, one for each cell of the
    table, none with white space at either end. *)
Theorem txt_entries_are_trimmed (table : node) :
  ∃ entries,
    retrieve_txt_record table = Ok entries
    ∧ length entries = length (findAll "td" table)
    ∧ Forall (λ v, ∃ s, v = VStr s ∧ trimmed s) entries.
Proof.
  eexists. split; [apply retrieve_txt_record_Ok|].
  split; [by rewrite length_fmap|].
  apply Forall_fmap, Forall_forall. intros td _. simpl.
  eexists. split; [done|]. apply strip_trimmed.
Qed.

(** ** Verbosity *)

Lemma silence_app (t u : list event) : silence (t ++ u) = silence t ++ silence u.
Proof. apply List.filter_app. Qed.

Lemma prints_app (t u : list event) : prints (t ++ u) = prints t ++ prints u.
Proof. apply List.filter_app. Qed.

Lemma silence_print (t : list event) (b : bool) (msg : string) :
  silence (t ++ (if b then [EvPrint msg] else [])) = silence t.
Proof. rewrite silence_app. destruct b; simpl; by rewrite List.app_nil_r. Qed.

Lemma silence_snoc (t t' : list event) (e : event) :
  silence t = silence t' → silence (t ++ [e]) = silence (t' ++ [e]).
Proof. intros Ht. by rewrite !silence_app, Ht. Qed.

Section Verbosity.
Context `{!Libs}.

Lemma fetch_asset_quiet (self : client) (pattern : list atom)
    (html found failed : string) (t1 t2 : list event) :
  deaf_to_prints → silence t1 = silence t2 →
  (fetch_asset self pattern html found failed t1).1
  = (fetch_asset (quiet_of self) pattern html found failed t2).1
  ∧ silence (fetch_asset self pattern html found failed t1).2
    = silence (fetch_asset (quiet_of self) pattern html found failed t2).2.
Proof.
  intros Hdeaf Ht.
  destruct (Re.search pattern html) as [pieces|] eqn:Hs.
  - assert (net (found_trace self found (group0 pieces) t1)
              (GET (group0 pieces))
            = net (found_trace (quiet_of self) found (group0 pieces) t2)
                (GET (group0 pieces))) as Hnet.
    { apply Hdeaf. unfold found_trace. by rewrite !silence_print. }
    destruct (net (found_trace (quiet_of self) found (group0 pieces) t2)
                (GET (group0 pieces))) as [r|e] eqn:Hnet2.
    + rewrite (fetch_asset_response self _ _ _ _ t1 pieces r) by done.
      rewrite (fetch_asset_response (quiet_of self) _ _ _ _ t2 pieces r)
        by done.
      split; [done|]. unfold found_trace. cbn [snd].
      apply silence_snoc. by rewrite !silence_print.
    + rewrite (fetch_asset_raises self _ _ _ _ t1 pieces e) by done.
      rewrite (fetch_asset_raises (quiet_of self) _ _ _ _ t2 pieces e)
        by done.
      split; [done|]. unfold found_trace. cbn [snd].
      rewrite !silence_print. apply silence_snoc. by rewrite !silence_print.
  - rewrite !fetch_asset_no_match by done. split; [done|]. cbn [snd].
    by rewrite !silence_print.
Qed.

Lemma parse_quiet (self : client) (html domain : string)
    (t1 t2 : list event) :
  deaf_to_prints → silence t1 = silence t2 →
  (parse_dnsdumpster self html domain t1).1
  = (parse_dnsdumpster (quiet_of self) html domain t2).1
  ∧ silence (parse_dnsdumpster self html domain t1).2
    = silence (parse_dnsdumpster (quiet_of self) html domain t2).2.
Proof.
  intros Hdeaf Ht.
  destruct (decide (length (findAll "table" (html_parser html)) < 4)).
  { rewrite !parse_few_tables by done. split; [done|]. cbn [snd].
    rewrite !silence_print. by apply silence_snoc. }
  destruct (decide (length (findAll "table" (html_parser html)) = 4)).
  { rewrite !parse_four_tables by done. split; [done|]. cbn [snd].
    by apply silence_snoc. }
  destruct (parse_five_tables self html domain t1)
    as (a1 & a2 & a3 & a4 & image & xls & tr1 & tr2 & H1 & H2 & H3 & H4
        & Himage & Hxls & ->); [lia|].
  destruct (parse_five_tables (quiet_of self) html domain t2)
    as (b1 & b2 & b3 & b4 & image' & xls' & tr1' & tr2' & H1' & H2' & H3'
        & H4' & Himage' & Hxls' & ->); [lia|].
  simplify_eq. unfold fetch_map, fetch_xls in *.
  destruct (fetch_asset_quiet self (pattern_map domain) html
              "Network mapping image URL: " "Error obtaining mapping image: "
              (t1 ++ [EvSoup html]) (t2 ++ [EvSoup html]) Hdeaf)
    as [Hv1 Hs1]; [by apply silence_snoc|].
  rewrite Himage, Himage' in Hv1, Hs1. cbn [fst snd] in Hv1, Hs1.
  destruct (fetch_asset_quiet self (pattern_xls domain) html
              "XLS URL: " "Error obtaining XLS file: " tr1 tr1' Hdeaf Hs1)
    as [Hv2 Hs2].
  rewrite Hxls, Hxls' in Hv2, Hs2. cbn [fst snd] in Hv2, Hs2.
  simplify_eq. done.
Qed.

(** X11: verbosity changes nothing but the prints.  When the network cannot
    see what is printed, [search] returns the same value (or raises the
    same exception) for a verbose client as for the same client made quiet,
    and makes the same calls to the network and the parser in the same
    order; [get_token] returns the same either way. *)
Theorem verbosity_only_prints (self : client) (domain : string)
    (t : list event) :
  deaf_to_prints →
  (search self domain t).1 = (search (quiet_of self) domain t).1
  ∧ silence (search self domain t).2
    = silence (search (quiet_of self) domain t).2
  ∧ (get_token (verbose self) t).1 = (get_token false t).1
  ∧ silence (get_token (verbose self) t).2 = silence (get_token false t).2.
Proof.
  intros Hdeaf. split; [|split; [|split]].
  3,4: rewrite !get_token_unfold;
       destruct (net t (GET landing)) as [r|e]; [|done];
       destruct (bool_decide (status_code r = 200%Z));
         [destruct (Re.search pattern_token (resp_text r))|];
       cbn [fst snd]; by rewrite ?silence_print, ?List.app_nil_r.
  all: rewrite !search_cases; cbn [authorization quiet_of];
    change (query (quiet_of self) domain) with (query self domain);
    assert (silence (announced self domain t)
            = silence (announced (quiet_of self) domain t)) as Hann
      by (unfold announced; by rewrite !silence_print);
    rewrite (Hdeaf (announced self domain t)
               (announced (quiet_of self) domain t) _ Hann);
    destruct (truthy_opt (authorization self));
      [|cbn [fst snd]; first [done | by apply silence_snoc]];
    destruct (net (announced (quiet_of self) domain t) (query self domain))
      as [r|e]; [|cbn [fst snd]; first [done | by apply silence_snoc]];
    destruct (bool_decide (status_code r ≠ 200%Z));
      [cbn [fst snd]; first [done | by rewrite !silence_print;
                                     apply silence_snoc]|];
    destruct (truthy (resp_text r));
      [|cbn [fst snd]; first [done | by apply silence_snoc]];
    by apply parse_quiet; [|apply silence_snoc].
Qed.

(** X12: a client that is not verbose prints one thing only: the line
    Authorization token is missing, each time [search] finds no token. *)
Theorem quiet_client_prints (self : client) (domain : string)
    (t : list event) :
  verbose self = false →
  prints (search self domain t).2
  = prints t
    ++ (if truthy_opt (authorization self) then []
        else [EvPrint "Authorization token is missing."]).
Proof.
  intros Hq.
  assert (∀ pattern html found failed t0,
    prints (fetch_asset self pattern html found failed t0).2 = prints t0)
    as Hfetch.
  { intros pattern html found failed t0.
    destruct (Re.search pattern html) as [pieces|] eqn:Hs.
    - destruct (net (found_trace self found (group0 pieces) t0)
                  (GET (group0 pieces))) as [r|e] eqn:Hnet.
      + erewrite fetch_asset_response by done. unfold found_trace.
        rewrite Hq. cbn [snd]. rewrite !prints_app. simpl.
        by rewrite !List.app_nil_r.
      + erewrite fetch_asset_raises by done. unfold found_trace.
        rewrite Hq. cbn [snd]. rewrite !prints_app. simpl.
        by rewrite !List.app_nil_r.
    - rewrite fetch_asset_no_match by done. rewrite Hq. cbn [snd].
      by rewrite List.app_nil_r. }
  assert (∀ html t0,
    prints (parse_dnsdumpster self html domain t0).2 = prints t0) as Hparse.
  { intros html t0.
    destruct (decide (length (findAll "table" (html_parser html)) < 4)).
    { rewrite parse_few_tables by done. rewrite Hq. cbn [snd].
      rewrite !prints_app. simpl. by rewrite !List.app_nil_r. }
    destruct (decide (length (findAll "table" (html_parser html)) = 4)).
    { rewrite parse_four_tables by done. cbn [snd].
      rewrite !prints_app. simpl. by rewrite !List.app_nil_r. }
    destruct (parse_five_tables self html domain t0)
      as (a1 & a2 & a3 & a4 & image & xls & tr1 & tr2 & _ & _ & _ & _
          & Himage & Hxls & ->); [lia|].
    cbn [snd]. unfold fetch_map, fetch_xls in *.
    pose proof (Hfetch (pattern_xls domain) html "XLS URL: "
                  "Error obtaining XLS file: " tr1) as H2.
    pose proof (Hfetch (pattern_map domain) html
                  "Network mapping image URL: "
                  "Error obtaining mapping image: " (t0 ++ [EvSoup html]))
      as H1.
    rewrite Hxls in H2. rewrite Himage in H1. cbn [snd] in H1, H2.
    rewrite H2, H1, prints_app. simpl. by rewrite List.app_nil_r. }
  rewrite search_cases. unfold announced. rewrite Hq.
  destruct (truthy_opt (authorization self)).
  2: { cbn [snd]. rewrite !prints_app. simpl. by rewrite !List.app_nil_r. }
  destruct (net (t ++ []) (query self domain)) as [r|e].
  2: { cbn [snd]. rewrite !prints_app. simpl. by rewrite !List.app_nil_r. }
  destruct (bool_decide (status_code r ≠ 200%Z)).
  { cbn [snd]. rewrite !prints_app. simpl. by rewrite !List.app_nil_r. }
  destruct (truthy (resp_text r)).
  - rewrite Hparse, !prints_app. simpl. by rewrite !List.app_nil_r.
  - cbn [snd]. rewrite !prints_app. simpl. by rewrite !List.app_nil_r.
Qed.

End Verbosity.

(** ** The further properties at work on the fixtures *)

Example asset_pattern_accepts_other_hosts :
  matches (pattern_asset "maps" "example.com" "png")
    "https://apiXdnsdumpsterYcom/static/maps/example.com-0a1b.png".
Proof.
  apply asset_pattern_language.
  exists "X"%char, "Y"%char, "0a1b". by vm_compute.
Qed.

(** The landing page that carries the token abc.def. *)
Lemma get_token_token_shape_witness :
  @get_token landing_site false []
  = (Ok (Some "abc.def"), [EvRequest (GET landing)])
  ∧ ∃ r pre w post,
      @net landing_site [] (GET landing) = Ok r ∧ status_code r = 200%Z
      ∧ "abc.def" ≠ "" ∧ contains dquote "abc.def" = false
      ∧ resp_text r
        = pre +:+ token_opening +:+ w
          +:+ String dquote ("abc.def" +:+ String dquote post)
      ∧ (w = "" ∨ ∃ c, isspace c = true ∧ w = String c "")
      ∧ ∀ j m, occurs_at (resp_text r) j m → matches pattern_token m →
               String.length pre ≤ j.
Proof.
  assert (@get_token landing_site false []
          = (Ok (Some "abc.def"), [EvRequest (GET landing)])) as Hget
    by (vm_compute; reflexivity).
  split; [exact Hget|].
  exact (@get_token_token_shape landing_site false []
           [EvRequest (GET landing)] "abc.def" Hget).
Defined.

(** The row with five cells. *)
Lemma host_is_leading_text_witness :
  @row_data demo (findAll "td" full_row) = Ok full_row_data
  ∧ ∃ td0 host pre post,
      findAll "td" full_row !! 0 = Some td0
      ∧ full_row_data !! "host" = Some (VStr host)
      ∧ contains "<" host = false ∧ contains ">" host = false
      ∧ @tag_str demo td0 = pre +:+ ">" +:+ host +:+ post
      ∧ contains ">" pre = false
      ∧ (post = ""
         ∨ ∃ post', post = String "<" post' ∨ post = String ">" post').
Proof.
  assert (@row_data demo (findAll "td" full_row) = Ok full_row_data) as Hrow
    by (vm_compute; reflexivity).
  split; [exact Hrow|].
  exact (@host_is_leading_text demo (findAll "td" full_row) full_row_data
           Hrow).
Defined.

Lemma as_and_range_are_lines_witness :
  @row_data demo (findAll "td" full_row) = Ok full_row_data
  ∧ ∃ asn asn_range,
      full_row_data !! "as" = Some (VStr asn)
      ∧ full_row_data !! "asn_range" = Some (VStr asn_range)
      ∧ contains newline asn = false ∧ contains newline asn_range = false
      ∧ ((contains newline (as_text (findAll "td" full_row)) = false
          ∧ asn = "" ∧ asn_range = "")
         ∨ ∃ first rest,
             contains newline first = false
             ∧ as_text (findAll "td" full_row)
               = first +:+ nl +:+ asn +:+ nl +:+ asn_range +:+ rest
             ∧ (rest = "" ∨ ∃ rest', rest = String newline rest')).
Proof.
  assert (@row_data demo (findAll "td" full_row) = Ok full_row_data) as Hrow
    by (vm_compute; reflexivity).
  split; [exact Hrow|].
  exact (@as_and_range_are_lines demo (findAll "td" full_row) full_row_data
           Hrow).
Defined.

Lemma entry_fields_are_trimmed_witness :
  @row_data demo (findAll "td" full_row) = Ok full_row_data
  ∧ ∃ asn_name country open_service,
      full_row_data !! "asn_name" = Some (VStr asn_name)
      ∧ full_row_data !! "asn_country" = Some (VStr country)
      ∧ full_row_data !! "open_service" = Some (VStr open_service)
      ∧ trimmed asn_name ∧ trimmed country ∧ trimmed open_service.
Proof.
  assert (@row_data demo (findAll "td" full_row) = Ok full_row_data) as Hrow
    by (vm_compute; reflexivity).
  split; [exact Hrow|].
  exact (@entry_fields_are_trimmed demo (findAll "td" full_row)
           full_row_data Hrow).
Defined.

(** The fixture's network answers by the request alone. *)
Lemma verbosity_only_prints_witness :
  @deaf_to_prints demo
  ∧ (@search demo chatty "example.com" []).1
    = (@search demo (quiet_of chatty) "example.com" []).1
  ∧ silence (@search demo chatty "example.com" []).2
    = silence (@search demo (quiet_of chatty) "example.com" []).2
  ∧ (@get_token demo (verbose chatty) []).1 = (@get_token demo false []).1
  ∧ silence (@get_token demo (verbose chatty) []).2
    = silence (@get_token demo false []).2.
Proof.
  assert (@deaf_to_prints demo) as Hdeaf by (intros t t' rq _; reflexivity).
  split; [exact Hdeaf|].
  exact (@verbosity_only_prints demo chatty "example.com" [] Hdeaf).
Defined.

(** The quiet client without a token. *)
Lemma quiet_client_prints_witness :
  verbose anonymous = false
  ∧ prints (@search demo anonymous "example.com" []).2
    = prints []
      ++ (if truthy_opt (authorization anonymous) then []
          else [EvPrint "Authorization token is missing."]).
Proof.
  split; [reflexivity|].
  exact (@quiet_client_prints demo anonymous "example.com" [] eq_refl).
Defined.
